(** * LightBnB data-access module (server/database.js)

    A shallow embedding of the six operations exported by
    [server/database.js] and of the query text they hand to the
    connection pool, followed by the properties of the module that the
    specification states. *)

From Stdlib Require Import ZArith QArith List String Ascii Bool Lia.
From Stdlib Require Import DecimalString DecimalNat Sorted Permutation.
From Stdlib Require Import SpecFloat.
Import ListNotations.
Local Open Scope string_scope.
Local Open Scope Z_scope.

(** ** JavaScript values

    The options of a search arrive as untyped JavaScript values, and the
    builder applies [ToBoolean] (the [if] guards), [Number(...)], [*] and
    template-literal interpolation to them.  A number is an IEEE 754
    double: a zero, an infinity, NaN, or a sign, a mantissa and a binary
    exponent, with the arithmetic of binary64 (53 bits of precision,
    round to nearest even).  Objects and arrays are not modelled. *)
Module JS.

(** Sign, mantissa [m] and exponent [e] stand for [m * 2^e]. *)
Definition number : Type := spec_float.

Definition NaN : number := S754_nan.

(** The number whose value is the integer [z], written with exponent 0. *)
Definition Num (z : Z) : number :=
  match z with
  | Z0 => S754_zero false
  | Zpos m => S754_finite false m 0
  | Zneg m => S754_finite true m 0
  end.

(** The integer that a number is, when it is one. *)
Definition integer_of (x : number) : option Z :=
  match x with
  | S754_zero _ => Some 0
  | S754_finite s m e =>
      if 0 <=? e then Some (cond_Zopp s (Z.pos m * 2 ^ e))
      else if Z.pos m mod 2 ^ (- e) =? 0
           then Some (cond_Zopp s (Z.pos m / 2 ^ (- e)))
           else None
  | _ => None
  end.

Inductive value : Type :=
  | VUndefined
  | VNull
  | VBool (b : bool)
  | VNum (n : number)
  | VStr (s : string).

  (** The conversions between strings and numbers are operations of the
      JavaScript runtime (ECMA-262 StringToNumber and Number::toString);
      the module under study only calls them. *)
Class Runtime : Type := {
    StringToNumber : string -> number;
    NumberToString : number -> string
  }.

  (** ECMA-262 ToBoolean: [undefined], [null], [false], [0], [NaN] and the
      empty string are falsy, everything else is truthy. *)
Definition ToBoolean (v : value) : bool :=
    match v with
    | VUndefined => false
    | VNull => false
    | VBool b => b
    | VNum (S754_zero _) => false
    | VNum S754_nan => false
    | VNum _ => true
    | VStr s => negb (s =? "")%string
    end.

  (** [Number(v)], that is ECMA-262 ToNumber on a primitive. *)
Definition Number `{Runtime} (v : value) : number :=
    match v with
    | VUndefined => NaN
    | VNull => Num 0
    | VBool true => Num 1
    | VBool false => Num 0
    | VNum n => n
    | VStr s => StringToNumber s
    end.

  (** ToString, as applied by a template literal to its substitutions. *)
Definition ToString `{Runtime} (v : value) : string :=
    match v with
    | VUndefined => "undefined"
    | VNull => "null"
    | VBool true => "true"
    | VBool false => "false"
    | VNum n => NumberToString n
    | VStr s => s
    end.

  (** The [*] operator on numbers: the product of binary64, rounded to
    nearest even. *)
Definition times (a b : number) : number := SFmul 53 1024 a b.

  (** [`${n}`] for an array length [n]: its decimal digits. *)
Definition decimal (n : nat) : string :=
    NilZero.string_of_uint (Nat.to_uint n).

  (** [Array.prototype.push], keeping the array. *)
Definition push {A : Type} (a : list A) (x : A) : list A := a ++ [x].

  (** [String.prototype.includes]. *)
Fixpoint includes (s sub : string) : bool :=
    prefix sub s
    || match s with
       | EmptyString => false
       | String _ s' => includes s' sub
       end.

End JS.
Import JS.

(** ** The relational schema

    The tables live in an external store; their definition is not part of
    [server/database.js].  Identifiers, prices, counts and ratings are
    integers, dates are day numbers. *)

(** Modelled from the spec: the schema of table [users] (section 3: id,
    name, email, password). *)
Module Users.
Record row : Type := {
    id : Z;
    name : string;
    email : string;
    password : string
  }.
End Users.

(** Modelled from the spec: the schema of table [properties] (section 3);
    the column names are those of the insert statement of [addProperty]. *)
Module Properties.
Record row : Type := {
    id : Z;
    owner_id : Z;
    title : string;
    description : string;
    thumbnail_photo_url : string;
    cover_photo_url : string;
    cost_per_night : Z;
    street : string;
    city : string;
    province : string;
    post_code : string;
    country : string;
    parking_spaces : Z;
    number_of_bathrooms : Z;
    number_of_bedrooms : Z;
    active : bool
  }.
End Properties.

(** Modelled from the spec: the schema of table [reservations]
    (section 3). *)
Module Reservations.
Record row : Type := {
    id : Z;
    guest_id : Z;
    property_id : Z;
    start_date : Z;
    end_date : Z
  }.
End Reservations.

(** Modelled from the spec: the schema of table [property_reviews]
    (section 3: id, property_id, rating). *)
Module PropertyReviews.
Record row : Type := {
    id : Z;
    property_id : Z;
    rating : Z
  }.
End PropertyReviews.

(** ** The arguments of the operations, as the JSDoc comments type them *)

(** [@param {{name: string, password: string, email: string}} user] *)
Module user.
Record t : Type := {
    name : string;
    email : string;
    password : string
  }.
End user.

(** The [property] object of [addProperty]: the fourteen fields the
    function reads, each an integer or a string as its column is, or
    missing ([None]: the object has no such key), and an [active] field
    that a caller may also have set. *)
Module property.
Record t : Type := {
    owner_id : option Z;
    title : option string;
    description : option string;
    thumbnail_photo_url : option string;
    cover_photo_url : option string;
    cost_per_night : option Z;
    street : option string;
    city : option string;
    province : option string;
    post_code : option string;
    country : option string;
    parking_spaces : option Z;
    number_of_bathrooms : option Z;
    number_of_bedrooms : option Z;
    active : option bool
  }.

(** Reading a field: the integer as a number, the string as it is, and
    [undefined] for a key that the object does not have. *)
Definition number_field (f : option Z) : value :=
  match f with
  | Some z => VNum (Num z)
  | None => VUndefined
  end.

Definition string_field (f : option string) : value :=
  match f with
  | Some s => VStr s
  | None => VUndefined
  end.
End property.

(** The [options] object of [getAllProperties].  Reading a key the object
    does not have yields [undefined], so an absent option is
    [VUndefined]. *)
Module options.
Record t : Type := {
    city : value;
    owner_id : value;
    minimum_price_per_night : value;
    maximum_price_per_night : value;
    minimum_rating : value
  }.
End options.

(** ** The statements

    The template literals of [server/database.js] that are fixed text,
    character for character (each begins with the line break that follows
    the opening backquote). *)
Module sql.

Definition getUserWithEmail : string := "
  SELECT * FROM users
  WHERE email = $1
  ".

Definition getUserWithId : string := "
  SELECT * FROM users
  WHERE id = $1
  ".

Definition addUser : string := "
  INSERT INTO users (
    name, email, password)
    VALUES (
      $1, $2, $3);
  ".

Definition getAllReservations : string := "
      SELECT properties.*, reservations.*, avg(rating) as average_rating
      FROM reservations
      JOIN properties ON reservations.property_id = properties.id
      JOIN property_reviews ON properties.id = property_reviews.property_id 
      WHERE reservations.guest_id = $1
      GROUP BY properties.id, reservations.id
      ORDER BY reservations.start_date
      LIMIT $2;
  ".

Definition addProperty : string := "
  INSERT INTO properties (
    owner_id, title, description, thumbnail_photo_url, cover_photo_url, cost_per_night, street, city, province, post_code, country, parking_spaces, number_of_bathrooms, number_of_bedrooms, active)
  VALUES (
      $1, $2, $3, $4, $5, $6, $7, $8, $9, $10, $11, $12, $13, $14, true)
  RETURNING *;
  ".

End sql.

(** ** The connection pool

    [require("./db_index")] is not part of [server/database.js].  The pool
    takes a statement and its positional values and answers with a row
    set or an error.  What the store does with the five fixed statements
    is written out below, clause by clause; any other statement (the
    search statement of [getAllProperties] is built at run time) is left
    to the store's own evaluator, the class [Engine]. *)
Module pool.

(** A combined property, reservation and average-rating record. *)
Record listing : Type := {
  listed_property : Properties.row;
  listed_reservation : Reservations.row;
  average_rating : Q
}.

Inductive row : Type :=
| UserRow (u : Users.row)
| PropertyRow (p : Properties.row)
| ListingRow (l : listing).

(** The [res] object the driver resolves to. *)
Record result : Type := { rows : list row }.

Record db : Type := {
  users : list Users.row;
  properties : list Properties.row;
  reservations : list Reservations.row;
  property_reviews : list PropertyReviews.row;
  users_id_seq : Z;
  properties_id_seq : Z
}.

Record request : Type := { text : string; values : list value }.

(** The store, and the statements the pool has received so far. *)
Record state : Type := { store : db; received : list request }.

Inductive StoreError : Type :=
| unique_violation (constraint : string)
| foreign_key_violation (constraint : string)
| not_null_violation
| value_out_of_range
| negative_limit
| bind_mismatch.

Inductive outcome (A : Type) : Type :=
| Resolved (a : A)
| Rejected (e : StoreError).
Arguments Resolved {A} a.
Arguments Rejected {A} e.

(** A promise, run against the pool. *)
Definition promise (A : Type) : Type := state -> state * outcome A.

(** [p.then(f)]: [f] maps the resolved value, a rejection passes through. *)
Definition then_ {A B : Type} (p : promise A) (f : A -> B) : promise B :=
  fun s =>
    let (s', r) := p s in
    (s', match r with
         | Resolved a => Resolved (f a)
         | Rejected e => Rejected e
         end).

(** What the store decides on its own: how it evaluates a statement that
    is not one of the five fixed ones ([evaluate]); in which order it
    returns two records that ORDER BY leaves tied, which may change from
    one request to the next ([tie_break]); and whether some value of an
    insert into properties lies outside what its column can hold, the
    widths and ranges of the columns being declared by the schema
    ([out_of_range]). *)
Class Engine : Type := {
  evaluate : request -> db -> db * outcome result;
  tie_break : request -> db -> listing -> listing -> bool;
  out_of_range : list value -> bool
}.

(** [SELECT * FROM users WHERE email = $1] *)
Definition select_user_by_email (email : string) (d : db) : list row :=
  map UserRow (filter (fun u => (Users.email u =? email)%string) (users d)).

(** [SELECT * FROM users WHERE id = $1] *)
Definition select_user_by_id (id : Z) (d : db) : list row :=
  map UserRow (filter (fun u => Users.id u =? id) (users d)).

(** Modelled from the spec: the uniqueness constraint on [users.email]
    (section 3: "email (unique)"), which the schema declares and
    [server/database.js] relies on. *)
Definition email_taken (email : string) (d : db) : bool :=
  existsb (fun u => (Users.email u =? email)%string) (users d).

(** [INSERT INTO users (name, email, password) VALUES ($1, $2, $3)]: the
    id comes from the table's sequence, which advances even when the row
    is refused; the statement has no RETURNING clause, so its row set is
    empty. *)
Definition insert_user (name email password : string) (d : db)
  : db * outcome result :=
  let id := users_id_seq d + 1 in
  if email_taken email d then
    ({| users := users d;
        properties := properties d;
        reservations := reservations d;
        property_reviews := property_reviews d;
        users_id_seq := id;
        properties_id_seq := properties_id_seq d |},
     Rejected (unique_violation "users_email_key"))
  else
    ({| users := users d ++ [ {| Users.id := id;
                                 Users.name := name;
                                 Users.email := email;
                                 Users.password := password |} ];
        properties := properties d;
        reservations := reservations d;
        property_reviews := property_reviews d;
        users_id_seq := id;
        properties_id_seq := properties_id_seq d |},
     Resolved {| rows := [] |}).

(** A value as an integer column takes it, and as a text column takes
    it: a number that is an integer, respectively a string. *)
Definition integer_column (v : value) : option Z :=
  match v with
  | VNum x => integer_of x
  | _ => None
  end.

Definition text_column (v : value) : option string :=
  match v with
  | VStr s => Some s
  | _ => None
  end.

(** A value that the driver sends as NULL. *)
Definition is_null (v : value) : bool :=
  match v with
  | VUndefined => true
  | VNull => true
  | _ => false
  end.

(** [INSERT INTO properties (owner_id, ..., number_of_bedrooms, active)
    VALUES ($1, ..., $14, true) RETURNING *]: the row has its fourteen
    named columns from [$1] to [$14] in the order of the column list,
    [active] from the literal [true] and the id from the table's
    sequence. *)
Definition property_of_values (id : Z) (values : list value)
  : option Properties.row :=
  match values with
  | [v1; v2; v3; v4; v5; v6; v7; v8; v9; v10; v11; v12; v13; v14] =>
      match integer_column v1, text_column v2, text_column v3,
            text_column v4, text_column v5, integer_column v6,
            text_column v7 with
      | Some owner_id, Some title, Some description,
        Some thumbnail_photo_url, Some cover_photo_url, Some cost_per_night,
        Some street =>
          match text_column v8, text_column v9, text_column v10,
                text_column v11, integer_column v12, integer_column v13,
                integer_column v14 with
          | Some city, Some province, Some post_code, Some country,
            Some parking_spaces, Some number_of_bathrooms,
            Some number_of_bedrooms =>
              Some {| Properties.id := id;
                      Properties.owner_id := owner_id;
                      Properties.title := title;
                      Properties.description := description;
                      Properties.thumbnail_photo_url := thumbnail_photo_url;
                      Properties.cover_photo_url := cover_photo_url;
                      Properties.cost_per_night := cost_per_night;
                      Properties.street := street;
                      Properties.city := city;
                      Properties.province := province;
                      Properties.post_code := post_code;
                      Properties.country := country;
                      Properties.parking_spaces := parking_spaces;
                      Properties.number_of_bathrooms := number_of_bathrooms;
                      Properties.number_of_bedrooms := number_of_bedrooms;
                      Properties.active := true |}
          | _, _, _, _, _, _, _ => None
          end
      | _, _, _, _, _, _, _ => None
      end
  | _ => None
  end.

(** Modelled from the spec: the reference from [properties.owner_id] to
    [users] (section 3: "owner_id (references User)"), which the schema
    declares. *)
Definition owner_exists (owner_id : Z) (d : db) : bool :=
  existsb (fun u => Users.id u =? owner_id) (users d).

(** Modelled from the spec: section 4.5, "a missing required field
    surfaces as a database error"; every column of the insert is taken as
    required.  The store refuses the row when a value is out of the range
    of its column, when a field is missing, and when the owner is not a
    user; the id is drawn from the sequence once the values are bound. *)
Definition insert_property `{Engine} (values : list value) (d : db)
  : db * outcome result :=
  let id := properties_id_seq d + 1 in
  let drawn :=
    {| users := users d;
       properties := properties d;
       reservations := reservations d;
       property_reviews := property_reviews d;
       users_id_seq := users_id_seq d;
       properties_id_seq := id |} in
  if out_of_range values then (d, Rejected value_out_of_range)
  else if existsb is_null values then (drawn, Rejected not_null_violation)
  else
    match property_of_values id values with
    | None => (d, Rejected bind_mismatch)
    | Some r =>
        if owner_exists (Properties.owner_id r) d then
          ({| users := users d;
              properties := properties d ++ [r];
              reservations := reservations d;
              property_reviews := property_reviews d;
              users_id_seq := users_id_seq d;
              properties_id_seq := id |},
           Resolved {| rows := [PropertyRow r] |})
        else
          (drawn,
           Rejected (foreign_key_violation "properties_owner_id_fkey"))
    end.

(** *** The reservation listing, clause by clause *)

(** [FROM reservations JOIN properties ON reservations.property_id =
    properties.id JOIN property_reviews ON properties.id =
    property_reviews.property_id]: inner joins, so a reservation yields one
    joined row per review of its property, and none when there is no
    review. *)
Definition joined : Type :=
  (Reservations.row * Properties.row * PropertyReviews.row)%type.

Definition from_reservations (d : db) : list joined :=
  flat_map
    (fun r =>
       flat_map
         (fun p =>
            if Reservations.property_id r =? Properties.id p then
              flat_map
                (fun v =>
                   if Properties.id p =? PropertyReviews.property_id v
                   then [(r, p, v)] else [])
                (property_reviews d)
            else [])
         (properties d))
    (reservations d).

(** [WHERE reservations.guest_id = $1] *)
Definition where_guest (guest_id : Z) (l : list joined) : list joined :=
  filter (fun j => Reservations.guest_id (fst (fst j)) =? guest_id) l.

(** [GROUP BY properties.id, reservations.id]: the groups, in the order
    in which their keys first occur. *)
Fixpoint group_insert {K A : Type} (eqb : K -> K -> bool) (k : K) (a : A)
  (gs : list (K * list A)) : list (K * list A) :=
  match gs with
  | [] => [(k, [a])]
  | (k', members) :: gs' =>
      if eqb k k' then (k', (members ++ [a])%list) :: gs'
      else (k', members) :: group_insert eqb k a gs'
  end.

Definition group_by {K A : Type} (eqb : K -> K -> bool) (key : A -> K)
  (l : list A) : list (K * list A) :=
  fold_left (fun gs a => group_insert eqb (key a) a gs) l [].

Definition key_eqb (k k' : Z * Z) : bool :=
  (fst k =? fst k') && (snd k =? snd k').

Definition group_key (j : joined) : Z * Z :=
  (Properties.id (snd (fst j)), Reservations.id (fst (fst j))).

(** [avg(rating)] over the rows of a group. *)
Definition avg (ratings : list Z) : Q :=
  Qmake (fold_right Z.add 0 ratings) (Pos.of_nat (List.length ratings)).

(** [SELECT properties.*, reservations.*, avg(rating) as average_rating]:
    one record per group; the columns of the property and of the
    reservation are those of the group's rows (the grouping keys are the
    two primary keys). *)
Definition select_listing (g : (Z * Z) * list joined) : list listing :=
  match snd g with
  | [] => []
  | (r, p, _) :: _ =>
      [ {| listed_property := p;
           listed_reservation := r;
           average_rating :=
             avg (map (fun j => PropertyReviews.rating (snd j)) (snd g)) |} ]
  end.

(** [ORDER BY reservations.start_date]: ascending.  The clause does not
    say which of two records with the same start_date comes first; that
    is [tied], the choice of the store. *)
Fixpoint insert_by_start_date (tied : listing -> listing -> bool)
  (x : listing) (l : list listing) : list listing :=
  match l with
  | [] => [x]
  | y :: l' =>
      if (Reservations.start_date (listed_reservation x)
            <? Reservations.start_date (listed_reservation y))
         || ((Reservations.start_date (listed_reservation x)
                =? Reservations.start_date (listed_reservation y))
             && tied x y)
      then x :: y :: l'
      else y :: insert_by_start_date tied x l'
  end.

Definition order_by_start_date (tied : listing -> listing -> bool)
  (l : list listing) : list listing :=
  fold_right (insert_by_start_date tied) [] l.

(** The whole statement of [getAllReservations], received as request
    [q]; [LIMIT $2] keeps the first [$2] records and refuses a negative
    count. *)
Definition select_reservations `{Engine} (q : request) (guest_id limit : Z)
  (d : db) : outcome result :=
  if limit <? 0 then Rejected negative_limit
  else
    let groups :=
      group_by key_eqb group_key (where_guest guest_id (from_reservations d)) in
    let records :=
      order_by_start_date (tie_break q d) (flat_map select_listing groups) in
    Resolved {| rows := map ListingRow (firstn (Z.to_nat limit) records) |}.

(** What the store does with a statement. *)
Definition run `{Engine} (q : request) (d : db) : db * outcome result :=
  if (text q =? sql.getUserWithEmail)%string then
    match values q with
    | [VStr email] => (d, Resolved {| rows := select_user_by_email email d |})
    | _ => (d, Rejected bind_mismatch)
    end
  else if (text q =? sql.getUserWithId)%string then
    match values q with
    | [v] =>
        match integer_column v with
        | Some id => (d, Resolved {| rows := select_user_by_id id d |})
        | None => (d, Rejected bind_mismatch)
        end
    | _ => (d, Rejected bind_mismatch)
    end
  else if (text q =? sql.addUser)%string then
    match values q with
    | [VStr name; VStr email; VStr password] =>
        insert_user name email password d
    | _ => (d, Rejected bind_mismatch)
    end
  else if (text q =? sql.getAllReservations)%string then
    match values q with
    | [v1; v2] =>
        match integer_column v1, integer_column v2 with
        | Some guest_id, Some limit =>
            (d, select_reservations q guest_id limit d)
        | _, _ => (d, Rejected bind_mismatch)
        end
    | _ => (d, Rejected bind_mismatch)
    end
  else if (text q =? sql.addProperty)%string then
    insert_property (values q) d
  else evaluate q d.

(** [pool.query(text, values)]: the pool records the statement and the
    store runs it. *)
Definition query `{Engine} (text : string) (values : list value)
  : promise result :=
  fun s =>
    let q := {| text := text; values := values |} in
    let (d, r) := run q (store s) in
    ({| store := d; received := received s ++ [q] |}, r).

End pool.

(** ** server/database.js *)
Section database.

Context `{Runtime} `{pool.Engine}.

(** Get a single user from the database given their email. *)
Definition getUserWithEmail (email : string)
  : pool.promise (option pool.row) :=
  pool.then_
    (pool.query sql.getUserWithEmail [VStr email])
    (fun res => nth_error (pool.rows res) 0).

(** Get a single user from the database given their id. *)
Definition getUserWithId (id : Z) : pool.promise (option pool.row) :=
  pool.then_
    (pool.query sql.getUserWithId [VNum (Num id)])
    (fun res => nth_error (pool.rows res) 0).

(** Add a new user to the database. *)
Definition addUser (user : user.t) : pool.promise (option pool.row) :=
  pool.then_
    (pool.query sql.addUser
       [VStr (user.name user); VStr (user.email user);
        VStr (user.password user)])
    (fun res => nth_error (pool.rows res) 0).

(** Get all reservations for a single user.  [limit = 10]: the default
    stands in when the caller passes no limit. *)
Definition getAllReservations (guest_id : Z) (limit : option Z)
  : pool.promise (list pool.row) :=
  let limit := match limit with Some l => l | None => 10 end in
  pool.then_
    (pool.query sql.getAllReservations [VNum (Num guest_id); VNum (Num limit)])
    (fun res => pool.rows res).

(** The two variables that [getAllProperties] builds its statement in. *)
Record builder : Type := {
  queryParams : list value;
  queryString : string
}.

Definition initial : builder :=
  {| queryParams := [];
     queryString := "
  SELECT properties.*, avg(property_reviews.rating) as average_rating
  FROM properties
  LEFT JOIN property_reviews ON properties.id = property_id
  WHERE 1=1
  " |}.

(** [if (options.city) { ... }] *)
Definition if_city (options : options.t) (b : builder) : builder :=
  if ToBoolean (options.city options) then
    let queryParams :=
      push (queryParams b) (VStr ("%" ++ ToString (options.city options) ++ "%")) in
    {| queryParams := queryParams;
       queryString :=
         queryString b
         ++ "AND city ILIKE $" ++ decimal (List.length queryParams) ++ " " |}
  else b.

(** [if (options.owner_id) { ... }] *)
Definition if_owner_id (options : options.t) (b : builder) : builder :=
  if ToBoolean (options.owner_id options) then
    let queryParams :=
      push (queryParams b) (VNum (Number (options.owner_id options))) in
    {| queryParams := queryParams;
       queryString :=
         queryString b
         ++ "AND owner_id = $" ++ decimal (List.length queryParams) ++ " " |}
  else b.

(** [if (options.minimum_price_per_night) { ... }] *)
Definition if_minimum_price_per_night (options : options.t) (b : builder)
  : builder :=
  if ToBoolean (options.minimum_price_per_night options) then
    let queryParams :=
      push (queryParams b)
        (VNum (times (Num 100)
                 (Number (options.minimum_price_per_night options)))) in
    {| queryParams := queryParams;
       queryString :=
         queryString b
         ++ "AND cost_per_night >= $" ++ decimal (List.length queryParams)
         ++ " " |}
  else b.

(** [if (options.maximum_price_per_night) { ... }] *)
Definition if_maximum_price_per_night (options : options.t) (b : builder)
  : builder :=
  if ToBoolean (options.maximum_price_per_night options) then
    let queryParams :=
      push (queryParams b)
        (VNum (times (Num 100)
                 (Number (options.maximum_price_per_night options)))) in
    {| queryParams := queryParams;
       queryString :=
         queryString b
         ++ "AND cost_per_night <= $" ++ decimal (List.length queryParams)
         ++ " " |}
  else b.

(** [if (options.minimum_rating) { ... }] *)
Definition if_minimum_rating (options : options.t) (b : builder) : builder :=
  if ToBoolean (options.minimum_rating options) then
    let queryParams :=
      push (queryParams b) (VNum (Number (options.minimum_rating options))) in
    {| queryParams := queryParams;
       queryString :=
         queryString b
         ++ "AND property_reviews.rating >= $"
         ++ decimal (List.length queryParams) ++ " " |}
  else b.

(** [queryParams.push(limit); queryString += ...] *)
Definition push_limit (limit : value) (b : builder) : builder :=
  let queryParams := push (queryParams b) limit in
  {| queryParams := queryParams;
     queryString :=
       queryString b ++ "
  GROUP BY properties.id
  ORDER BY cost_per_night
  LIMIT $" ++ decimal (List.length queryParams) ++ ";
  " |}.

(** Lines 96 to 131: the statement and the values that [getAllProperties]
    hands to the pool.  [limit = 10]: the default stands in for an
    [undefined] argument. *)
Definition getAllProperties_query (options : options.t) (limit : value)
  : builder :=
  let limit := match limit with VUndefined => VNum (Num 10) | _ => limit end in
  let b := initial in
  let b := if_city options b in
  let b := if_owner_id options b in
  let b := if_minimum_price_per_night options b in
  let b := if_maximum_price_per_night options b in
  let b := if_minimum_rating options b in
  push_limit limit b.

(** Get all properties. *)
Definition getAllProperties (options : options.t) (limit : value)
  : pool.promise (list pool.row) :=
  let b := getAllProperties_query options limit in
  pool.then_
    (pool.query (queryString b) (queryParams b))
    (fun res => pool.rows res).

(** Add a property to the database. *)
Definition addProperty (property : property.t)
  : pool.promise (option pool.row) :=
  pool.then_
    (pool.query sql.addProperty
       [ property.number_field (property.owner_id property);
         property.string_field (property.title property);
         property.string_field (property.description property);
         property.string_field (property.thumbnail_photo_url property);
         property.string_field (property.cover_photo_url property);
         property.number_field (property.cost_per_night property);
         property.string_field (property.street property);
         property.string_field (property.city property);
         property.string_field (property.province property);
         property.string_field (property.post_code property);
         property.string_field (property.country property);
         property.number_field (property.parking_spaces property);
         property.number_field (property.number_of_bathrooms property);
         property.number_field (property.number_of_bedrooms property) ])
    (fun res => nth_error (pool.rows res) 0).

End database.

(** ** The search statement as the specification describes it

    Section 4.4 and the design notes present the builder as an
    accumulation of (predicate, bound value) pairs for the options that
    apply, rendered with placeholders numbered from 1, between the base
    clause and the closing GROUP BY, ORDER BY and LIMIT.  These definitions
    follow that description; the theorems compare them with
    [getAllProperties_query]. *)
Section where_clause.

Context `{Runtime}.

Record clause : Type := {
  condition : string;
  bound : value
}.

Definition city_clause (o : options.t) : clause :=
  {| condition := "city ILIKE";
     bound := VStr ("%" ++ ToString (options.city o) ++ "%") |}.

Definition owner_id_clause (o : options.t) : clause :=
  {| condition := "owner_id =";
     bound := VNum (Number (options.owner_id o)) |}.

Definition minimum_price_clause (o : options.t) : clause :=
  {| condition := "cost_per_night >=";
     bound :=
       VNum (times (Num 100) (Number (options.minimum_price_per_night o))) |}.

Definition maximum_price_clause (o : options.t) : clause :=
  {| condition := "cost_per_night <=";
     bound :=
       VNum (times (Num 100) (Number (options.maximum_price_per_night o))) |}.

Definition minimum_rating_clause (o : options.t) : clause :=
  {| condition := "property_reviews.rating >=";
     bound := VNum (Number (options.minimum_rating o)) |}.

(** The clause of an option, when the option applies. *)
Definition when (applies : bool) (c : clause) : list clause :=
  if applies then [c] else [].

(** The predicates of the options whose guard holds, in the order of the
    source. *)
Definition applicable (o : options.t) : list clause :=
  (when (ToBoolean (options.city o)) (city_clause o)
   ++ when (ToBoolean (options.owner_id o)) (owner_id_clause o)
   ++ when (ToBoolean (options.minimum_price_per_night o))
        (minimum_price_clause o)
   ++ when (ToBoolean (options.maximum_price_per_night o))
        (maximum_price_clause o)
   ++ when (ToBoolean (options.minimum_rating o)) (minimum_rating_clause o))%list.

(** A predicate with its placeholder, prefixed by AND. *)
Definition conjunct (i : nat) (c : clause) : string :=
  "AND " ++ condition c ++ " $" ++ decimal i ++ " ".

(** The conjunction of the predicates, the first bound to placeholder
    [i]. *)
Fixpoint conjunction (i : nat) (cs : list clause) : string :=
  match cs with
  | [] => ""
  | c :: cs' => conjunct i c ++ conjunction (S i) cs'
  end.

Definition base_clause : string := "
  SELECT properties.*, avg(property_reviews.rating) as average_rating
  FROM properties
  LEFT JOIN property_reviews ON properties.id = property_id
  WHERE 1=1
  ".

Definition closing (i : nat) : string := "
  GROUP BY properties.id
  ORDER BY cost_per_night
  LIMIT $" ++ decimal i ++ ";
  ".

Definition limit_or_default (limit : value) : value :=
  match limit with
  | VUndefined => VNum (Num 10)
  | _ => limit
  end.

(** The builder after the predicates [cs]: their bound values, and the
    base clause followed by their conjunction. *)
Definition rendered (cs : list clause) : builder :=
  {| queryParams := map bound cs;
     queryString := base_clause ++ conjunction 1 cs |}.

(** One step of the builder from [b] to [b']: one value is pushed, and one
    predicate is appended whose placeholder is the length of the list
    after the push. *)
Definition appends (c : clause) (b b' : builder) : Prop :=
  queryParams b' = (queryParams b ++ [bound c])%list
  /\ queryString b' =
       queryString b
       ++ "AND " ++ condition c ++ " $"
       ++ decimal (List.length (queryParams b')) ++ " ".

(** An option as the guards see it: a falsy value is dropped. *)
Definition drop_falsy (v : value) : value :=
  if ToBoolean v then v else VUndefined.

Definition without_falsy (o : options.t) : options.t :=
  {| options.city := drop_falsy (options.city o);
     options.owner_id := drop_falsy (options.owner_id o);
     options.minimum_price_per_night :=
       drop_falsy (options.minimum_price_per_night o);
     options.maximum_price_per_night :=
       drop_falsy (options.maximum_price_per_night o);
     options.minimum_rating := drop_falsy (options.minimum_rating o) |}.

End where_clause.

(** An option that the caller passed: its key is in the object. *)
Definition supplied (v : value) : Prop := v <> VUndefined.

(** *** Placeholders of a statement *)

Definition is_digit (c : ascii) : bool :=
  ((48 <=? nat_of_ascii c) && (nat_of_ascii c <=? 57))%nat.

(** The digits a string starts with. *)
Fixpoint leading_digits (s : string) : string :=
  match s with
  | EmptyString => ""
  | String c s' => if is_digit c then String c (leading_digits s') else ""
  end.

(** The numbers of the placeholders [$n] of a statement, in the order in
    which they occur. *)
Fixpoint placeholders (s : string) : list nat :=
  match s with
  | EmptyString => []
  | String c s' =>
      if (c =? "$")%char then
        match NilZero.uint_of_string (leading_digits s') with
        | Some d => Nat.of_uint d :: placeholders s'
        | None => placeholders s'
        end
      else placeholders s'
  end.

(** The invariant of the builder: the placeholders of the statement built
    so far are [$1], [$2], ... in this order, one for each value bound so
    far. *)
Definition numbered (b : builder) : Prop :=
  placeholders (queryString b) = seq 1 (List.length (queryParams b)).

Definition no_dollar (s : string) : bool :=
  forallb (fun c => negb (c =? "$")%char) (list_ascii_of_string s).

(** The order of the reservation listing. *)
Definition starts_no_later (a b : pool.listing) : Prop :=
  Reservations.start_date (pool.listed_reservation a)
  <= Reservations.start_date (pool.listed_reservation b).

(** A property has a review in the store. *)
Definition reviewed (d : pool.db) (property_id : Z) : Prop :=
  exists v, In v (pool.property_reviews d)
            /\ PropertyReviews.property_id v = property_id.

(** ** Instances for running the operations on examples *)

Definition is_white_space (c : ascii) : bool :=
  let n := nat_of_ascii c in
  ((n =? 32) || ((9 <=? n) && (n <=? 13)))%nat.

Fixpoint trim_start (s : string) : string :=
  match s with
  | EmptyString => ""
  | String c s' => if is_white_space c then trim_start s' else s
  end.

Definition reverse (s : string) : string :=
  string_of_list_ascii (rev (list_ascii_of_string s)).

Definition trim (s : string) : string :=
  reverse (trim_start (reverse (trim_start s))).

(** The double nearest to an integer: the integer itself below 2^53. *)
Definition nearest (z : Z) : number :=
  if Z.abs z <? 2 ^ 53 then Num z else binary_normalize 53 1024 z 0 false.

Definition number_of_digits (negative : bool) (s : string) : number :=
  match NilZero.uint_of_string s with
  | Some d => nearest (if negative then - Z.of_uint d else Z.of_uint d)
  | None => NaN
  end.

(** StringToNumber on the spellings of integers in decimal: white space
    around the literal is skipped, the empty string is 0, a sign may
    precede the digits.  The other literal forms of the grammar (fraction,
    exponent, radix prefix, Infinity) denote numbers that this instance
    does not compute; it answers [NaN] for them, as for text that is no
    literal at all. *)
Definition decimal_StringToNumber (s : string) : number :=
  match trim s with
  | EmptyString => Num 0
  | String "+" s' => number_of_digits false s'
  | String "-" s' => number_of_digits true s'
  | s' => number_of_digits false s'
  end.

(** Number::toString on the integers, in decimal digits (the runtime
    prints them so below 10^21); this instance prints no fraction and
    answers as for [NaN] there. *)
Definition decimal_NumberToString (n : number) : string :=
  match n with
  | S754_infinity false => "Infinity"
  | S754_infinity true => "-Infinity"
  | _ =>
      match integer_of n with
      | Some z => NilZero.string_of_int (Z.to_int z)
      | None => "NaN"
      end
  end.

#[local] Instance decimal_runtime : Runtime :=
  {| StringToNumber := decimal_StringToNumber;
     NumberToString := decimal_NumberToString |}.

(** A store that finds no row for a search, as on a store without
    properties, returns tied records in the order in which it grouped
    them, and has columns wide enough for every value. *)
#[local] Instance no_rows : pool.Engine :=
  {| pool.evaluate := fun _ d => (d, pool.Resolved {| pool.rows := [] |});
     pool.tie_break := fun _ _ _ _ => true;
     pool.out_of_range := fun _ => false |}.

Definition empty_db : pool.db :=
  {| pool.users := [];
     pool.properties := [];
     pool.reservations := [];
     pool.property_reviews := [];
     pool.users_id_seq := 0;
     pool.properties_id_seq := 0 |}.

Definition fresh (d : pool.db) : pool.state :=
  {| pool.store := d; pool.received := [] |}.

Definition no_options : options.t :=
  {| options.city := VUndefined;
     options.owner_id := VUndefined;
     options.minimum_price_per_night := VUndefined;
     options.maximum_price_per_night := VUndefined;
     options.minimum_rating := VUndefined |}.

(** Options and stores for the examples. *)
Definition empty_city_options : options.t :=
  {| options.city := VStr "";
     options.owner_id := VUndefined;
     options.minimum_price_per_night := VUndefined;
     options.maximum_price_per_night := VUndefined;
     options.minimum_rating := VUndefined |}.

Definition zero_minimum_price_options : options.t :=
  {| options.city := VUndefined;
     options.owner_id := VUndefined;
     options.minimum_price_per_night := VNum (Num 0);
     options.maximum_price_per_night := VUndefined;
     options.minimum_rating := VUndefined |}.

(** An owner_id given as text, as a query string gives it. *)
Definition zero_spelled_owner_options : options.t :=
  {| options.city := VUndefined;
     options.owner_id := VStr "0";
     options.minimum_price_per_night := VUndefined;
     options.maximum_price_per_night := VUndefined;
     options.minimum_rating := VUndefined |}.

(** A price above 2^53 / 100. *)
Definition huge_minimum_price_options : options.t :=
  {| options.city := VUndefined;
     options.owner_id := VUndefined;
     options.minimum_price_per_night := VNum (Num 9007199254740994);
     options.maximum_price_per_night := VUndefined;
     options.minimum_rating := VUndefined |}.

Definition price_range_options : options.t :=
  {| options.city := VStr "van";
     options.owner_id := VUndefined;
     options.minimum_price_per_night := VStr "50";
     options.maximum_price_per_night := VNum (Num 100);
     options.minimum_rating := VUndefined |}.


Definition sample_property (id : Z) : Properties.row :=
  {| Properties.id := id;
     Properties.owner_id := 1;
     Properties.title := "Speed lamp";
     Properties.description := "description";
     Properties.thumbnail_photo_url := "thumbnail";
     Properties.cover_photo_url := "cover";
     Properties.cost_per_night := 9300;
     Properties.street := "536 Namsub Highway";
     Properties.city := "Sotboske";
     Properties.province := "Quebec";
     Properties.post_code := "28142";
     Properties.country := "Canada";
     Properties.parking_spaces := 6;
     Properties.number_of_bathrooms := 4;
     Properties.number_of_bedrooms := 8;
     Properties.active := true |}.

(** A property record with every field, for an owner given by id. *)
Definition sample_record (owner_id : Z) (active : option bool) : property.t :=
  {| property.owner_id := Some owner_id;
     property.title := Some "Speed lamp";
     property.description := Some "description";
     property.thumbnail_photo_url := Some "thumbnail";
     property.cover_photo_url := Some "cover";
     property.cost_per_night := Some 9300;
     property.street := Some "536 Namsub Highway";
     property.city := Some "Sotboske";
     property.province := Some "Quebec";
     property.post_code := Some "28142";
     property.country := Some "Canada";
     property.parking_spaces := Some 6;
     property.number_of_bathrooms := Some 4;
     property.number_of_bedrooms := Some 8;
     property.active := active |}.

Definition sample_reservation (id guest_id property_id start_date : Z)
  : Reservations.row :=
  {| Reservations.id := id;
     Reservations.guest_id := guest_id;
     Reservations.property_id := property_id;
     Reservations.start_date := start_date;
     Reservations.end_date := start_date + 7 |}.

Definition sample_review (id property_id rating : Z) : PropertyReviews.row :=
  {| PropertyReviews.id := id;
     PropertyReviews.property_id := property_id;
     PropertyReviews.rating := rating |}.

(** One user; three properties, the third without a review; guest 7 has
    reserved each of them, the first one twice. *)
Definition sample_db : pool.db :=
  {| pool.users :=
       [ {| Users.id := 1;
            Users.name := "A";
            Users.email := "a@x.com";
            Users.password := "p" |} ];
     pool.properties :=
       [sample_property 1; sample_property 2; sample_property 3];
     pool.reservations :=
       [ sample_reservation 1 7 1 30;
         sample_reservation 2 7 2 10;
         sample_reservation 3 7 3 5;
         sample_reservation 4 8 1 1;
         sample_reservation 5 7 1 20 ];
     pool.property_reviews :=
       [sample_review 1 1 4; sample_review 2 2 3; sample_review 3 1 5];
     pool.users_id_seq := 1;
     pool.properties_id_seq := 3 |}.

(** The values that [addProperty] binds, in the order of the array. *)
Definition bound_values (p : property.t) : list value :=
  [ property.number_field (property.owner_id p);
    property.string_field (property.title p);
    property.string_field (property.description p);
    property.string_field (property.thumbnail_photo_url p);
    property.string_field (property.cover_photo_url p);
    property.number_field (property.cost_per_night p);
    property.string_field (property.street p);
    property.string_field (property.city p);
    property.string_field (property.province p);
    property.string_field (property.post_code p);
    property.string_field (property.country p);
    property.number_field (property.parking_spaces p);
    property.number_field (property.number_of_bathrooms p);
    property.number_field (property.number_of_bedrooms p) ].

Definition present {A : Type} (f : option A) : bool :=
  match f with
  | Some _ => true
  | None => false
  end.

(** A property record that has each of the fourteen fields. *)
Definition complete (p : property.t) : bool :=
  forallb (fun b : bool => b)
    [ present (property.owner_id p); present (property.title p);
      present (property.description p);
      present (property.thumbnail_photo_url p);
      present (property.cover_photo_url p);
      present (property.cost_per_night p); present (property.street p);
      present (property.city p); present (property.province p);
      present (property.post_code p); present (property.country p);
      present (property.parking_spaces p);
      present (property.number_of_bathrooms p);
      present (property.number_of_bedrooms p) ].

(** The owner of a property record is a user of the store. *)
Definition owner_is_user (p : property.t) (d : pool.db) : bool :=
  match property.owner_id p with
  | Some owner_id => pool.owner_exists owner_id d
  | None => false
  end.

Definition resolves {A : Type} (r : pool.outcome A) : bool :=
  match r with
  | pool.Resolved _ => true
  | pool.Rejected _ => false
  end.

(** The records of the reservation listing in their order, before LIMIT
    cuts them. *)
Definition ordered_listing `{pool.Engine} (q : pool.request) (guest_id : Z)
  (d : pool.db) : list pool.listing :=
  pool.order_by_start_date (pool.tie_break q d)
    (flat_map pool.select_listing
       (pool.group_by pool.key_eqb pool.group_key
          (pool.where_guest guest_id (pool.from_reservations d)))).

(** The grouping key of a record of the listing. *)
Definition listing_key (x : pool.listing) : Z * Z :=
  (Properties.id (pool.listed_property x),
   Reservations.id (pool.listed_reservation x)).

(** Options whose text carries SQL of its own. *)
Definition quoting_options : options.t :=
  {| options.city := VStr "x' OR 1=1; DROP TABLE users; --";
     options.owner_id := VUndefined;
     options.minimum_price_per_night := VNum (Num 1);
     options.maximum_price_per_night := VStr "2 OR 1=1";
     options.minimum_rating := VUndefined |}.

(** * Properties *)

(** ** Strings *)

Lemma append_assoc (a b c : string) : (a ++ b) ++ c = a ++ (b ++ c).
Proof.
  induction a as [|x a IH]; simpl; [reflexivity | now rewrite IH].
Qed.

Lemma append_empty_r (a : string) : a ++ "" = a.
Proof.
  induction a as [|x a IH]; simpl; [reflexivity | now rewrite IH].
Qed.

Lemma prefix_append (sub rest : string) : prefix sub (sub ++ rest) = true.
Proof.
  induction sub as [|x sub IH]; simpl.
  - now destruct rest.
  - destruct (ascii_dec x x) as [e|ne]; [exact IH | now elim ne].
Qed.

Lemma includes_here (s sub : string) : prefix sub s = true -> includes s sub = true.
Proof.
  intros Hp. destruct s; simpl in *; rewrite Hp; reflexivity.
Qed.

Lemma includes_append (a sub rest : string) :
  includes (a ++ sub ++ rest) sub = true.
Proof.
  induction a as [|x a IH].
  - simpl (_ ++ _). apply includes_here, prefix_append.
  - simpl. rewrite IH. apply orb_true_r.
Qed.

(** ** Numbers *)

Lemma integer_of_Num (z : Z) : integer_of (Num z) = Some z.
Proof.
  destruct z as [|m|m]; cbn; [reflexivity | |]; now rewrite Pos.mul_1_r.
Qed.

Lemma ToBoolean_Num (z : Z) : ToBoolean (VNum (Num z)) = negb (z =? 0).
Proof. now destruct z. Qed.

Lemma digits2_pos_le (m : positive) :
  2 ^ (Z.pos (digits2_pos m) - 1) <= Z.pos m.
Proof.
  induction m as [m IH|m IH|]; cbn [digits2_pos]; [| |reflexivity];
    rewrite Pos2Z.inj_succ;
    replace (Z.succ (Z.pos (digits2_pos m)) - 1)
      with (Z.succ (Z.pos (digits2_pos m) - 1)) by lia;
    rewrite Z.pow_succ_r by lia; lia.
Qed.

Lemma digits2_pos_53 (m : positive) :
  Z.pos m < 2 ^ 53 -> Z.pos (digits2_pos m) <= 53.
Proof.
  intros Hm. destruct (Z.le_gt_cases (Z.pos (digits2_pos m)) 53) as [|Hd];
    [assumption|].
  pose proof (digits2_pos_le m) as Hle.
  assert (2 ^ 53 <= 2 ^ (Z.pos (digits2_pos m) - 1))
    by (apply Z.pow_le_mono_r; lia).
  lia.
Qed.

(** A mantissa below 2^53 at exponent 0 needs no rounding. *)
Lemma binary_round_aux_exact (s : bool) (m : positive) :
  Z.pos m < 2 ^ 53 ->
  binary_round_aux 53 1024 s (Z.pos m) 0 loc_Exact = S754_finite s m 0.
Proof.
  intros Hm. pose proof (digits2_pos_53 m Hm) as Hd.
  assert (E : shr_fexp 53 1024 (Z.pos m) 0 loc_Exact
              = ({| shr_m := Z.pos m; shr_r := false; shr_s := false |}, 0)).
  { unfold shr_fexp, shr, fexp, emin, Zdigits2, shr_record_of_loc.
    destruct (Z.max (Z.pos (digits2_pos m) + 0 - 53) (3 - 1024 - 53) - 0)
      eqn:En; try reflexivity. lia. }
  unfold binary_round_aux. rewrite E.
  cbn [shr_m loc_of_shr_record round_nearest_even]. rewrite E.
  reflexivity.
Qed.

(** The product of a positive integer and an integer is exact as long as
    it stays below 2^53 in absolute value. *)
Lemma times_Num_exact (a : positive) (z : Z) :
  Z.abs (Z.pos a * z) < 2 ^ 53 ->
  times (Num (Z.pos a)) (Num z) = Num (Z.pos a * z).
Proof.
  destruct z as [|m|m]; intros Hz; [reflexivity | |];
    cbn [Num Z.mul times SFmul xorb Z.add];
    apply binary_round_aux_exact; exact Hz.
Qed.

Lemma digits2_pos_lt (m : positive) :
  Z.pos m < 2 ^ Z.pos (digits2_pos m).
Proof.
  induction m as [m IH|m IH|]; cbn [digits2_pos]; [| |reflexivity];
    rewrite Pos2Z.inj_succ, Z.pow_succ_r by lia; lia.
Qed.

(** Shifting an even mantissa right loses nothing. *)
Lemma shr_1_even (m : Z) :
  0 <= m -> (2 | m) ->
  shr_1 {| shr_m := m; shr_r := false; shr_s := false |}
  = {| shr_m := m / 2; shr_r := false; shr_s := false |}.
Proof.
  intros Hm [k Hk]. subst m. rewrite Z.div_mul by lia.
  destruct k as [|k|k]; [reflexivity | | lia].
  now replace (Z.pos k * 2) with (Z.pos k~0) by lia.
Qed.

Lemma iter_shr_1_exact (p : positive) :
  forall m : Z,
    0 <= m -> (2 ^ Z.pos p | m) ->
    iter_pos shr_1 p {| shr_m := m; shr_r := false; shr_s := false |}
    = {| shr_m := m / 2 ^ Z.pos p; shr_r := false; shr_s := false |}.
Proof.
  induction p as [p IH|p IH|]; intros m Hm Hd; cbn [iter_pos].
  - assert (E : 2 ^ Z.pos p~1 = 2 * (2 ^ Z.pos p * 2 ^ Z.pos p)).
    { rewrite Pos2Z.inj_xI, Z.add_1_r, Z.pow_succ_r by lia.
      replace (2 * Z.pos p) with (Z.pos p + Z.pos p) by lia.
      now rewrite Z.pow_add_r by lia. }
    rewrite E in *. destruct Hd as [k Hk].
    assert (H2 : 0 < 2 ^ Z.pos p) by (apply Z.pow_pos_nonneg; lia).
    rewrite shr_1_even; [|lia|exists (k * (2 ^ Z.pos p * 2 ^ Z.pos p)); lia].
    assert (Em : m / 2 = k * 2 ^ Z.pos p * 2 ^ Z.pos p).
    { subst m. replace (k * (2 * (2 ^ Z.pos p * 2 ^ Z.pos p)))
        with ((k * 2 ^ Z.pos p * 2 ^ Z.pos p) * 2) by lia.
      now rewrite Z.div_mul by lia. }
    assert (Hk0 : 0 <= k) by nia.
    rewrite Em.
    rewrite IH; [|nia|exists (k * 2 ^ Z.pos p); lia].
    rewrite Z.div_mul by lia.
    rewrite IH; [|nia|exists k; lia].
    rewrite Z.div_mul by lia. f_equal.
    rewrite Hk. symmetry. apply Z.div_mul. lia.
  - assert (E : 2 ^ Z.pos p~0 = 2 ^ Z.pos p * 2 ^ Z.pos p).
    { change (Z.pos p~0) with (2 * Z.pos p).
      now rewrite <- Z.add_diag, Z.pow_add_r by lia. }
    rewrite E in *. destruct Hd as [k Hk].
    assert (H2 : 0 < 2 ^ Z.pos p) by (apply Z.pow_pos_nonneg; lia).
    assert (Hk0 : 0 <= k) by nia.
    rewrite IH; [|lia|exists (k * 2 ^ Z.pos p); lia].
    replace (m / 2 ^ Z.pos p) with (k * 2 ^ Z.pos p)
      by (rewrite Hk, Z.mul_assoc; symmetry; apply Z.div_mul; lia).
    rewrite IH; [|nia|exists k; lia].
    rewrite Z.div_mul by lia. f_equal.
    rewrite Hk. symmetry. apply Z.div_mul. lia.
  - change (2 ^ 1) with 2 in *. now apply shr_1_even.
Qed.

(** The exponent that binary64 gives a value below 2^53 is not above the
    exponent 0. *)
Lemma digits_of_small (P : positive) (e V : Z) :
  0 < V < 2 ^ 53 ->
  (if 0 <=? e then V = Z.pos P * 2 ^ e else Z.pos P = V * 2 ^ (- e)) ->
  Z.pos (digits2_pos P) + e <= 53.
Proof.
  intros HV Hval. pose proof (digits2_pos_le P) as Hd.
  destruct (Z.leb_spec 0 e) as [He|He].
  - assert (2 ^ (Z.pos (digits2_pos P) - 1) * 2 ^ e < 2 ^ 53).
    { assert (0 < 2 ^ e) by (apply Z.pow_pos_nonneg; lia). nia. }
    rewrite <- Z.pow_add_r in H by lia.
    apply Z.pow_lt_mono_r_iff in H; lia.
  - assert (2 ^ (Z.pos (digits2_pos P) - 1) < 2 ^ 53 * 2 ^ (- e)).
    { assert (0 < 2 ^ (- e)) by (apply Z.pow_pos_nonneg; lia). nia. }
    rewrite <- Z.pow_add_r in H by lia.
    apply Z.pow_lt_mono_r_iff in H; lia.
Qed.

Lemma shr_fexp_still (P : positive) (e : Z) :
  Z.pos (digits2_pos P) <= 53 -> - 1074 <= e ->
  shr_fexp 53 1024 (Z.pos P) e loc_Exact
  = ({| shr_m := Z.pos P; shr_r := false; shr_s := false |}, e).
Proof.
  intros Hd He.
  unfold shr_fexp, shr, fexp, emin, Zdigits2, shr_record_of_loc.
  destruct (Z.max (Z.pos (digits2_pos P) + e - 53) (3 - 1024 - 53) - e)
    eqn:En; try reflexivity. lia.
Qed.

Lemma shr_fexp_shift (P : positive) (e : Z) (p : positive) :
  Z.max (Z.pos (digits2_pos P) + e - 53) (- 1074) - e = Z.pos p ->
  (2 ^ Z.pos p | Z.pos P) ->
  shr_fexp 53 1024 (Z.pos P) e loc_Exact
  = ({| shr_m := Z.pos P / 2 ^ Z.pos p; shr_r := false; shr_s := false |},
     e + Z.pos p).
Proof.
  intros En Hdiv.
  unfold shr_fexp, shr, fexp, emin, Zdigits2, shr_record_of_loc.
  change (3 - 1024 - 53) with (- 1074). rewrite En.
  now rewrite iter_shr_1_exact by (trivial; lia).
Qed.

Lemma integer_of_finite (s : bool) (P : positive) (e V : Z) :
  (if 0 <=? e then V = Z.pos P * 2 ^ e else Z.pos P = V * 2 ^ (- e)) ->
  integer_of (S754_finite s P e) = Some (cond_Zopp s V).
Proof.
  cbn [integer_of]. destruct (0 <=? e) eqn:He; [now intros ->|].
  intros ->. apply Z.leb_gt in He.
  assert (0 < 2 ^ (- e)) by (apply Z.pow_pos_nonneg; lia).
  rewrite Z.mod_mul, Z.div_mul by lia. reflexivity.
Qed.

(** Rounding a mantissa and exponent that stand for an integer below 2^53
    gives that integer. *)
Lemma binary_round_aux_integer (s : bool) (P : positive) (e V : Z) :
  0 < V < 2 ^ 53 ->
  (if 0 <=? e then V = Z.pos P * 2 ^ e else Z.pos P = V * 2 ^ (- e)) ->
  integer_of (binary_round_aux 53 1024 s (Z.pos P) e loc_Exact)
  = Some (cond_Zopp s V).
Proof.
  intros HV Hval.
  pose proof (digits_of_small P e V HV Hval) as Hd.
  pose proof (digits2_pos_lt P) as Hlt.
  pose proof (digits2_pos_le P) as Hle.
  destruct (Z.max (Z.pos (digits2_pos P) + e - 53) (- 1074) - e)
    as [|p|p] eqn:En.
  - (* the exponent is the one of binary64 already *)
    assert (Hd53 : Z.pos (digits2_pos P) <= 53) by lia.
    unfold binary_round_aux.
    rewrite shr_fexp_still by lia.
    cbn [shr_m loc_of_shr_record round_nearest_even].
    rewrite shr_fexp_still by lia. cbn [shr_m].
    assert (He : e <= 1024 - 53) by lia.
    apply Z.leb_le in He. rewrite He. now apply integer_of_finite.
  - (* a shift right by p bits, all of them 0 *)
    assert (He : e < 0) by lia.
    destruct (0 <=? e) eqn:E0; [apply Z.leb_le in E0; lia|].
    assert (Hp : Z.pos p <= - e) by lia.
    assert (H2p : 0 < 2 ^ Z.pos p) by (apply Z.pow_pos_nonneg; lia).
    assert (Esplit : 2 ^ (- e) = 2 ^ (- e - Z.pos p) * 2 ^ Z.pos p).
    { rewrite <- Z.pow_add_r by lia. f_equal. lia. }
    assert (H2r : 0 < 2 ^ (- e - Z.pos p)) by (apply Z.pow_pos_nonneg; lia).
    assert (Hq : Z.pos P / 2 ^ Z.pos p = V * 2 ^ (- e - Z.pos p)).
    { rewrite Hval, Esplit, Z.mul_assoc. apply Z.div_mul. lia. }
    assert (Hqpos : 0 < Z.pos P / 2 ^ Z.pos p) by (rewrite Hq; nia).
    destruct (Z.pos P / 2 ^ Z.pos p) as [|P'|P'] eqn:EP'; try lia.
    assert (HP' : Z.pos P' < 2 ^ 53).
    { assert (Hdp : Z.pos (digits2_pos P) <= Z.pos p + 53) by lia.
      assert (2 ^ Z.pos (digits2_pos P) <= 2 ^ (Z.pos p + 53))
        by (apply Z.pow_le_mono_r; lia).
      rewrite Z.pow_add_r in H by lia.
      assert (Z.pos P = Z.pos P' * 2 ^ Z.pos p).
      { rewrite Hq, Hval, Esplit. lia. }
      nia. }
    assert (Hd' : Z.pos (digits2_pos P') <= 53).
    { destruct (Z.le_gt_cases (Z.pos (digits2_pos P')) 53); [assumption|].
      pose proof (digits2_pos_le P').
      assert (2 ^ 53 <= 2 ^ (Z.pos (digits2_pos P') - 1))
        by (apply Z.pow_le_mono_r; lia).
      lia. }
    unfold binary_round_aux.
    rewrite (shr_fexp_shift P e p En)
      by (exists (V * 2 ^ (- e - Z.pos p)); rewrite Hval, Esplit; lia).
    rewrite EP'.
    cbn [shr_m loc_of_shr_record round_nearest_even].
    rewrite shr_fexp_still by lia. cbn [shr_m].
    assert (He' : e + Z.pos p <= 1024 - 53) by lia.
    apply Z.leb_le in He'. rewrite He'.
    apply integer_of_finite.
    destruct (Z.leb_spec 0 (e + Z.pos p)) as [H0|H0].
    + assert (e + Z.pos p = 0) by lia.
      replace (- e - Z.pos p) with 0 in Hq by lia.
      rewrite H. cbn [Z.pow]. rewrite Hq. cbn [Z.pow]. lia.
    + rewrite Hq. f_equal. f_equal. lia.
  - (* the exponent is the one of binary64 already *)
    assert (Hd53 : Z.pos (digits2_pos P) <= 53) by lia.
    assert (He : - 1074 <= e) by lia.
    unfold binary_round_aux.
    rewrite shr_fexp_still by lia.
    cbn [shr_m loc_of_shr_record round_nearest_even].
    rewrite shr_fexp_still by lia. cbn [shr_m].
    assert (He' : e <= 1024 - 53) by lia.
    apply Z.leb_le in He'. rewrite He'. now apply integer_of_finite.
Qed.

(** Multiplying an integer by a positive integer is exact as long as the
    product stays below 2^53 in absolute value, however the integer is
    written as mantissa and exponent. *)
Lemma times_integer_exact (a : positive) (x : number) (z : Z) :
  integer_of x = Some z ->
  Z.abs (Z.pos a * z) < 2 ^ 53 ->
  integer_of (times (Num (Z.pos a)) x) = Some (Z.pos a * z).
Proof.
  destruct x as [s| | |s m e]; try discriminate.
  - intros [= <-] _. cbn. reflexivity.
  - unfold integer_of, times, Num, SFmul. change (xorb false s) with s.
    change (0 + e) with e.
    assert (Hs : forall w, Z.pos a * cond_Zopp s w = cond_Zopp s (Z.pos a * w))
      by (intros w; destruct s; cbn [cond_Zopp]; lia).
    assert (Ha : forall w, 0 < w ->
               Z.abs (Z.pos a * cond_Zopp s w) < 2 ^ 53 ->
               0 < Z.pos a * w < 2 ^ 53).
    { intros w Hw Hz. rewrite Z.abs_mul in Hz.
      replace (Z.abs (cond_Zopp s w)) with w in Hz
        by (destruct s; cbn [cond_Zopp]; lia).
      cbn [Z.abs] in Hz. nia. }
    destruct (0 <=? e) eqn:He.
    + intros Hx Hz.
      assert (Ez : z = cond_Zopp s (Z.pos m * 2 ^ e)) by congruence.
      subst z. clear Hx. rewrite Hs.
      assert (0 < 2 ^ e)
        by (apply Z.pow_pos_nonneg; [lia | now apply Z.leb_le]).
      apply binary_round_aux_integer.
      * apply Ha; [nia | exact Hz].
      * rewrite He. rewrite Pos2Z.inj_mul. ring.
    + destruct (Z.pos m mod 2 ^ (- e) =? 0) eqn:Hm; [|discriminate].
      intros Hx Hz.
      assert (Ez : z = cond_Zopp s (Z.pos m / 2 ^ (- e))) by congruence.
      subst z. clear Hx. rewrite Hs.
      apply Z.leb_gt in He. apply Z.eqb_eq in Hm.
      assert (HK : 0 < 2 ^ (- e)) by (apply Z.pow_pos_nonneg; lia).
      assert (Em : Z.pos m = Z.pos m / 2 ^ (- e) * 2 ^ (- e)).
      { rewrite (Z.div_mod (Z.pos m) (2 ^ (- e))) at 1 by lia.
        rewrite Hm. lia. }
      assert (0 < Z.pos m / 2 ^ (- e)) by nia.
      apply binary_round_aux_integer.
      * apply Ha; [assumption | exact Hz].
      * destruct (0 <=? e) eqn:He'; [apply Z.leb_le in He'; lia|].
        rewrite Pos2Z.inj_mul. rewrite Em at 1. ring.
Qed.

(** ** The builder and the rendered where clause *)
Section builder_facts.

Context `{Runtime}.

Lemma conjunction_app (i : nat) (cs cs' : list clause) :
  conjunction i (cs ++ cs')%list
  = conjunction i cs ++ conjunction (i + List.length cs) cs'.
Proof.
  revert i. induction cs as [|c cs IH]; intros i;
    cbn [conjunction List.app List.length].
  - now rewrite Nat.add_0_r.
  - rewrite IH, append_assoc, Nat.add_succ_r. reflexivity.
Qed.

Lemma appends_rendered (c : clause) (cs : list clause) (b' : builder) :
  appends c (rendered cs) b' -> b' = rendered (cs ++ [c]).
Proof.
  destruct b' as [ps s]. unfold appends, rendered.
  cbn [queryParams queryString]. intros [-> ->]. f_equal.
  - now rewrite map_app.
  - rewrite conjunction_app, length_app, length_map.
    cbn [conjunction List.length]. unfold conjunct.
    rewrite append_empty_r, append_assoc.
    now rewrite (Nat.add_comm (List.length cs) 1).
Qed.

Lemma if_city_step (o : options.t) (b : builder) :
  if ToBoolean (options.city o)
  then appends (city_clause o) b (if_city o b)
  else if_city o b = b.
Proof.
  unfold if_city. destruct (ToBoolean (options.city o)); [split|]; reflexivity.
Qed.

Lemma if_owner_id_step (o : options.t) (b : builder) :
  if ToBoolean (options.owner_id o)
  then appends (owner_id_clause o) b (if_owner_id o b)
  else if_owner_id o b = b.
Proof.
  unfold if_owner_id.
  destruct (ToBoolean (options.owner_id o)); [split|]; reflexivity.
Qed.

Lemma if_minimum_price_per_night_step (o : options.t) (b : builder) :
  if ToBoolean (options.minimum_price_per_night o)
  then appends (minimum_price_clause o) b (if_minimum_price_per_night o b)
  else if_minimum_price_per_night o b = b.
Proof.
  unfold if_minimum_price_per_night.
  destruct (ToBoolean (options.minimum_price_per_night o)); [split|];
    reflexivity.
Qed.

Lemma if_maximum_price_per_night_step (o : options.t) (b : builder) :
  if ToBoolean (options.maximum_price_per_night o)
  then appends (maximum_price_clause o) b (if_maximum_price_per_night o b)
  else if_maximum_price_per_night o b = b.
Proof.
  unfold if_maximum_price_per_night.
  destruct (ToBoolean (options.maximum_price_per_night o)); [split|];
    reflexivity.
Qed.

Lemma if_minimum_rating_step (o : options.t) (b : builder) :
  if ToBoolean (options.minimum_rating o)
  then appends (minimum_rating_clause o) b (if_minimum_rating o b)
  else if_minimum_rating o b = b.
Proof.
  unfold if_minimum_rating.
  destruct (ToBoolean (options.minimum_rating o)); [split|]; reflexivity.
Qed.

(** A guarded step takes the rendering of [cs] to the rendering of [cs]
    followed by the clause, when the guard holds. *)
Lemma step_rendered (g : bool) (c : clause) (cs : list clause) (b' : builder) :
  (if g then appends c (rendered cs) b' else b' = rendered cs) ->
  b' = rendered (cs ++ when g c).
Proof.
  destruct g; simpl.
  - apply appends_rendered.
  - now rewrite app_nil_r.
Qed.

Lemma initial_rendered : initial = rendered [].
Proof. reflexivity. Qed.

(** The builder of the source computes the rendering of the applicable
    clauses, then binds the limit. *)
Lemma query_rendered (o : options.t) (limit : value) :
  getAllProperties_query o limit
  = push_limit (limit_or_default limit) (rendered (applicable o)).
Proof.
  unfold getAllProperties_query, applicable.
  fold (limit_or_default limit). f_equal.
  rewrite initial_rendered.
  rewrite (step_rendered _ _ _ _ (if_city_step o _)).
  rewrite (step_rendered _ _ _ _ (if_owner_id_step o _)).
  rewrite (step_rendered _ _ _ _ (if_minimum_price_per_night_step o _)).
  rewrite (step_rendered _ _ _ _ (if_maximum_price_per_night_step o _)).
  rewrite (step_rendered _ _ _ _ (if_minimum_rating_step o _)).
  simpl ([] ++ _)%list. now rewrite <- !app_assoc.
Qed.

Lemma query_params (o : options.t) (limit : value) :
  queryParams (getAllProperties_query o limit)
  = (map bound (applicable o) ++ [limit_or_default limit])%list.
Proof. now rewrite query_rendered. Qed.

Lemma query_params_length (o : options.t) (limit : value) :
  List.length (queryParams (getAllProperties_query o limit))
  = S (List.length (applicable o)).
Proof.
  rewrite query_params, length_app, length_map. simpl. lia.
Qed.

Lemma query_string (o : options.t) (limit : value) :
  queryString (getAllProperties_query o limit)
  = base_clause ++ conjunction 1 (applicable o)
    ++ closing (S (List.length (applicable o))).
Proof.
  rewrite query_rendered. unfold push_limit, rendered, push.
  cbn [queryParams queryString].
  rewrite length_app, length_map, append_assoc. cbn [List.length].
  now rewrite Nat.add_1_r.
Qed.

End builder_facts.

(** ** Placeholders *)

Lemma leading_digits_uint (d : Decimal.uint) (rest : string) :
  leading_digits (NilEmpty.string_of_uint d ++ rest)
  = NilEmpty.string_of_uint d ++ leading_digits rest.
Proof.
  induction d; cbn [NilEmpty.string_of_uint append leading_digits];
    try reflexivity;
    (change (is_digit _) with true; cbv iota; now rewrite IHd).
Qed.

Lemma leading_digits_decimal (n : nat) (c : ascii) (rest : string) :
  is_digit c = false ->
  leading_digits (decimal n ++ String c rest) = decimal n.
Proof.
  intros Hc. unfold decimal, NilZero.string_of_uint.
  destruct (Nat.to_uint n) eqn:E;
    try (rewrite leading_digits_uint; cbn [leading_digits]; rewrite Hc;
         now rewrite append_empty_r).
  cbn [append leading_digits]. change (is_digit "0") with true. cbv iota.
  now rewrite Hc.
Qed.

Lemma decimal_parse (n : nat) :
  exists d, NilZero.uint_of_string (decimal n) = Some d /\ Nat.of_uint d = n.
Proof.
  unfold decimal.
  pose proof (DecimalNat.Unsigned.of_to n) as Hn.
  destruct (Nat.to_uint n) as [|d|d|d|d|d|d|d|d|d|d] eqn:E;
    [ exists Decimal.zero; split; [reflexivity | exact Hn] | .. ];
    (eexists; split; [apply NilZero.usu; discriminate | exact Hn]).
Qed.

Lemma placeholders_uint (d : Decimal.uint) (rest : string) :
  placeholders (NilEmpty.string_of_uint d ++ rest) = placeholders rest.
Proof.
  induction d; cbn [NilEmpty.string_of_uint append placeholders];
    try reflexivity; exact IHd.
Qed.

Lemma placeholders_decimal (n : nat) (rest : string) :
  placeholders (decimal n ++ rest) = placeholders rest.
Proof.
  unfold decimal, NilZero.string_of_uint.
  destruct (Nat.to_uint n); try apply placeholders_uint. reflexivity.
Qed.

(** A placeholder is read back as the number it was printed from. *)
Lemma placeholders_dollar (n : nat) (c : ascii) (rest : string) :
  is_digit c = false ->
  placeholders ("$" ++ decimal n ++ String c rest)
  = n :: placeholders (String c rest).
Proof.
  intros Hc. cbn [append placeholders]. change ("$" =? "$")%char with true.
  cbv iota. rewrite (leading_digits_decimal n c rest Hc).
  destruct (decimal_parse n) as (d & -> & ->).
  now rewrite placeholders_decimal.
Qed.

Lemma placeholders_no_dollar (s rest : string) :
  no_dollar s = true -> placeholders (s ++ rest) = placeholders rest.
Proof.
  unfold no_dollar. induction s as [|c s IH]; [reflexivity|].
  cbn [list_ascii_of_string forallb append placeholders].
  intros [Hc Hs]%andb_prop. apply negb_true_iff in Hc. rewrite Hc. auto.
Qed.

Lemma leading_digits_app (s f : string) :
  leading_digits f = "" -> leading_digits (s ++ f) = leading_digits s.
Proof.
  intros Hf. induction s as [|c s IH]; [exact Hf|].
  cbn [append leading_digits]. destruct (is_digit c); [now rewrite IH | reflexivity].
Qed.

(** Text that does not start with a digit adds its own placeholders and
    leaves those before it as they are. *)
Lemma placeholders_app (s f : string) :
  leading_digits f = "" ->
  placeholders (s ++ f) = (placeholders s ++ placeholders f)%list.
Proof.
  intros Hf. induction s as [|c s IH]; [reflexivity|].
  cbn [append placeholders]. rewrite (leading_digits_app s f Hf), IH.
  destruct (c =? "$")%char; [|reflexivity].
  now destruct (NilZero.uint_of_string (leading_digits s)).
Qed.

Lemma placeholders_conjunct (i : nat) (c : clause) (rest : string) :
  no_dollar (condition c) = true ->
  placeholders (conjunct i c ++ rest) = i :: placeholders rest.
Proof.
  intros Hc. unfold conjunct.
  rewrite !append_assoc.
  rewrite (placeholders_no_dollar "AND ") by reflexivity.
  rewrite (placeholders_no_dollar (condition c)) by exact Hc.
  change (" $" ++ decimal i ++ " " ++ rest)
    with (" " ++ "$" ++ decimal i ++ String " " rest).
  rewrite (placeholders_no_dollar " ") by reflexivity.
  rewrite placeholders_dollar by reflexivity.
  reflexivity.
Qed.

Lemma placeholders_conjunction (cs : list clause) (i : nat) (rest : string) :
  Forall (fun c => no_dollar (condition c) = true) cs ->
  placeholders (conjunction i cs ++ rest)
  = (seq i (List.length cs) ++ placeholders rest)%list.
Proof.
  intros Hcs. revert i. induction Hcs as [|c cs Hc _ IH]; intros i.
  - reflexivity.
  - cbn [conjunction List.length seq]. rewrite append_assoc.
    rewrite placeholders_conjunct by exact Hc. now rewrite IH.
Qed.

Lemma placeholders_closing (i : nat) : placeholders (closing i) = [i].
Proof.
  unfold closing.
  change (placeholders
            (("
  GROUP BY properties.id
  ORDER BY cost_per_night
  LIMIT ") ++ "$" ++ decimal i ++ String ";" "
  ") = [i]).
  rewrite placeholders_no_dollar by reflexivity.
  now rewrite placeholders_dollar.
Qed.

(** ** The invariant of the builder *)
Section builder_invariant.

Context `{Runtime}.

Lemma numbered_initial : numbered initial.
Proof. reflexivity. Qed.

Lemma numbered_appends (c : clause) (b b' : builder) :
  no_dollar (condition c) = true ->
  numbered b -> appends c b b' -> numbered b'.
Proof.
  unfold numbered. intros Hc Hb [Hp Hs]. rewrite Hs.
  rewrite placeholders_app by reflexivity. rewrite Hb.
  rewrite <- (append_empty_r (_ ++ _ ++ _ ++ _ ++ " ")).
  change ("AND " ++ condition c ++ " $"
          ++ decimal (List.length (queryParams b')) ++ " ")
    with (conjunct (List.length (queryParams b')) c).
  rewrite placeholders_conjunct by exact Hc.
  rewrite Hp, length_app. cbn [List.length placeholders].
  rewrite Nat.add_1_r. now rewrite seq_S.
Qed.

Lemma numbered_step (g : bool) (c : clause) (b b' : builder) :
  no_dollar (condition c) = true ->
  numbered b ->
  (if g then appends c b b' else b' = b) ->
  numbered b'.
Proof.
  intros Hc Hb. destruct g.
  - now apply numbered_appends.
  - now intros ->.
Qed.

Lemma numbered_push_limit (limit : value) (b : builder) :
  numbered b -> numbered (push_limit limit b).
Proof.
  unfold numbered, push_limit, push. cbn [queryParams queryString].
  intros Hb. rewrite placeholders_app by reflexivity. rewrite Hb.
  fold (closing (List.length (queryParams b ++ [limit]))).
  rewrite placeholders_closing, length_app. cbn [List.length].
  rewrite Nat.add_1_r. now rewrite seq_S.
Qed.

Lemma numbered_query (o : options.t) (limit : value) :
  numbered (getAllProperties_query o limit).
Proof.
  unfold getAllProperties_query.
  apply numbered_push_limit.
  eapply numbered_step; [| | apply if_minimum_rating_step]; [reflexivity|].
  eapply numbered_step;
    [| | apply if_maximum_price_per_night_step]; [reflexivity|].
  eapply numbered_step;
    [| | apply if_minimum_price_per_night_step]; [reflexivity|].
  eapply numbered_step; [| | apply if_owner_id_step]; [reflexivity|].
  eapply numbered_step; [| | apply if_city_step]; [reflexivity|].
  apply numbered_initial.
Qed.

End builder_invariant.

(** ** What the pool receives *)
Section pool_facts.

Context `{pool.Engine}.

Lemma then_state {A B : Type} (p : pool.promise A) (f : A -> B) (s : pool.state) :
  fst (pool.then_ p f s) = fst (p s).
Proof. unfold pool.then_. now destruct (p s). Qed.

Lemma then_outcome {A B : Type} (p : pool.promise A) (f : A -> B) (s : pool.state) :
  snd (pool.then_ p f s)
  = match snd (p s) with
    | pool.Resolved a => pool.Resolved (f a)
    | pool.Rejected e => pool.Rejected e
    end.
Proof. unfold pool.then_. now destruct (p s). Qed.

(** Every call of [pool.query] hands exactly one statement to the pool. *)
Lemma query_received (text : string) (values : list value) (s : pool.state) :
  pool.received (fst (pool.query text values s))
  = (pool.received s
     ++ [ {| pool.text := text; pool.values := values |} ])%list.
Proof. unfold pool.query. now destruct (pool.run _ _). Qed.

Lemma query_store (text : string) (values : list value) (s : pool.state) :
  pool.store (fst (pool.query text values s))
  = fst (pool.run {| pool.text := text; pool.values := values |} (pool.store s)).
Proof. unfold pool.query. now destruct (pool.run _ _). Qed.

Lemma query_outcome (text : string) (values : list value) (s : pool.state) :
  snd (pool.query text values s)
  = snd (pool.run {| pool.text := text; pool.values := values |} (pool.store s)).
Proof. unfold pool.query. now destruct (pool.run _ _). Qed.

End pool_facts.

(** ** Property search *)
Section getAllProperties_facts.

Context `{Runtime} `{pool.Engine}.

Lemma getAllProperties_received (o : options.t) (limit : value) (s : pool.state) :
  pool.received (fst (getAllProperties o limit s))
  = (pool.received s
     ++ [ {| pool.text := queryString (getAllProperties_query o limit);
             pool.values := queryParams (getAllProperties_query o limit) |} ])%list.
Proof.
  unfold getAllProperties. now rewrite then_state, query_received.
Qed.

(** A clause at position [k] of the applicable ones is bound to the
    [k]-th value, and the statement has its predicate on [$k]. *)
Lemma clause_in_query (o : options.t) (limit : value)
  (before after : list clause) (c : clause) :
  applicable o = (before ++ c :: after)%list ->
  nth_error (queryParams (getAllProperties_query o limit))
    (List.length before) = Some (bound c)
  /\ includes (queryString (getAllProperties_query o limit))
       (conjunct (S (List.length before)) c) = true.
Proof.
  intros E. rewrite query_params, query_string, E. split.
  - rewrite map_app, <- app_assoc.
    rewrite nth_error_app2 by (rewrite length_map; lia).
    now rewrite length_map, Nat.sub_diag.
  - rewrite conjunction_app. cbn [conjunction Nat.add].
    rewrite !append_assoc.
    rewrite <- (append_assoc base_clause).
    apply includes_append.
Qed.

End getAllProperties_facts.

(** Case analysis on the five guards of [getAllProperties], after which
    the text of the statement is closed. *)
Ltac by_guards o :=
  rewrite ?query_string, ?query_params; unfold applicable;
  destruct (ToBoolean (options.city o)),
           (ToBoolean (options.owner_id o)),
           (ToBoolean (options.minimum_price_per_night o)),
           (ToBoolean (options.maximum_price_per_night o)),
           (ToBoolean (options.minimum_rating o));
  vm_compute; reflexivity.

Section getAllProperties_claims.

Context `{Runtime} `{pool.Engine}.

Lemma drop_falsy_guard (v : value) : ToBoolean (drop_falsy v) = ToBoolean v.
Proof. unfold drop_falsy. now destruct (ToBoolean v) eqn:E. Qed.

Lemma drop_falsy_truthy (v : value) : ToBoolean v = true -> drop_falsy v = v.
Proof. unfold drop_falsy. now intros ->. Qed.

Lemma applicable_without_falsy (o : options.t) :
  applicable (without_falsy o) = applicable o.
Proof.
  unfold applicable, city_clause, owner_id_clause, minimum_price_clause,
    maximum_price_clause, minimum_rating_clause, without_falsy.
  cbn [options.city options.owner_id options.minimum_price_per_night
       options.maximum_price_per_night options.minimum_rating].
  rewrite !drop_falsy_guard.
  destruct (ToBoolean (options.city o)) eqn:E1;
    [rewrite (drop_falsy_truthy _ E1)|];
  (destruct (ToBoolean (options.owner_id o)) eqn:E2;
    [rewrite (drop_falsy_truthy _ E2)|]);
  (destruct (ToBoolean (options.minimum_price_per_night o)) eqn:E3;
    [rewrite (drop_falsy_truthy _ E3)|]);
  (destruct (ToBoolean (options.maximum_price_per_night o)) eqn:E4;
    [rewrite (drop_falsy_truthy _ E4)|]);
  (destruct (ToBoolean (options.minimum_rating o)) eqn:E5;
    [rewrite (drop_falsy_truthy _ E5)|]);
  reflexivity.
Qed.

(** C1 (amended).  For every options record and limit, [getAllProperties]
    hands the pool exactly one statement.  Its base clause selects all
    property columns and the average review rating through a LEFT JOIN to
    property_reviews and ends in the predicate 1=1.  After it come the
    AND-prefixed predicates of exactly the options whose value is truthy,
    each once and in the order of the source: the statement has the
    predicate of an option if and only if the guard [if (options.x)]
    holds, so an option that is absent or falsy contributes none. *)
Theorem getAllProperties_where_clause
  (o : options.t) (limit : value) (s : pool.state) :
  let q := getAllProperties_query o limit in
  pool.received (fst (getAllProperties o limit s))
  = (pool.received s
     ++ [ {| pool.text := queryString q; pool.values := queryParams q |} ])%list
  /\ queryString q
     = base_clause ++ conjunction 1 (applicable o)
       ++ closing (S (List.length (applicable o)))
  /\ includes base_clause
       "SELECT properties.*, avg(property_reviews.rating) as average_rating"
     = true
  /\ includes base_clause
       "LEFT JOIN property_reviews ON properties.id = property_id" = true
  /\ includes base_clause "WHERE 1=1" = true
  /\ includes (queryString q) "AND city ILIKE $"
     = ToBoolean (options.city o)
  /\ includes (queryString q) "AND owner_id = $"
     = ToBoolean (options.owner_id o)
  /\ includes (queryString q) "AND cost_per_night >= $"
     = ToBoolean (options.minimum_price_per_night o)
  /\ includes (queryString q) "AND cost_per_night <= $"
     = ToBoolean (options.maximum_price_per_night o)
  /\ includes (queryString q) "AND property_reviews.rating >= $"
     = ToBoolean (options.minimum_rating o).
Proof.
  intros q. subst q.
  split; [apply getAllProperties_received|].
  split; [apply query_string|].
  do 3 (split; [reflexivity|]).
  repeat split; by_guards o.
Qed.

(** C2 (amended).  When minimum_price_per_night (respectively
    maximum_price_per_night) is truthy, the value bound to the placeholder
    [$k] of the predicate [cost_per_night >= $k] (respectively
    [cost_per_night <= $k]) is [100 * Number(v)], the product of doubles.
    The product is the exact integer [100 * v] whenever [v] is an integer,
    however it is written as a double, and [100 * v] is below 2^53 in
    absolute value; a fraction is scaled as well, 12.5 to 1250, and with
    the rounding of doubles, 0.07 to 7.000000000000001 (the double
    7881299347898369 * 2^-50).  With minimum_price_per_night 50 and
    maximum_price_per_night 100 the values bound are 5000 and 10000, both
    bounds inclusive. *)
Theorem getAllProperties_price_in_cents
  (o : options.t) (limit : value) :
  let q := getAllProperties_query o limit in
  (ToBoolean (options.minimum_price_per_night o) = true ->
   exists k : nat,
     nth_error (queryParams q) (k - 1)
     = Some (VNum (times (Num 100)
                     (Number (options.minimum_price_per_night o))))
     /\ (1 <= k)%nat
     /\ includes (queryString q)
          ("AND cost_per_night >= $" ++ decimal k ++ " ") = true)
  /\ (ToBoolean (options.maximum_price_per_night o) = true ->
      exists k : nat,
        nth_error (queryParams q) (k - 1)
        = Some (VNum (times (Num 100)
                        (Number (options.maximum_price_per_night o))))
        /\ (1 <= k)%nat
        /\ includes (queryString q)
             ("AND cost_per_night <= $" ++ decimal k ++ " ") = true)
  /\ (forall (x : number) (v : Z),
        integer_of x = Some v ->
        Z.abs (100 * v) < 2 ^ 53 ->
        integer_of (times (Num 100) x) = Some (100 * v))
  /\ (forall v : Z,
        Z.abs (100 * v) < 2 ^ 53 ->
        times (Num 100) (Num v) = Num (100 * v))
  /\ integer_of (times (Num 100) (S754_finite false 25 (-1))) = Some 1250
  /\ times (Num 100) (S754_finite false 5044031582654956 (-56))
     = S754_finite false 7881299347898369 (-50)
  /\ getAllProperties_query
       {| options.city := VUndefined;
          options.owner_id := VUndefined;
          options.minimum_price_per_night := VNum (Num 50);
          options.maximum_price_per_night := VNum (Num 100);
          options.minimum_rating := VUndefined |} limit
     = {| queryParams :=
            [VNum (Num 5000); VNum (Num 10000); limit_or_default limit];
          queryString :=
            base_clause
            ++ "AND cost_per_night >= $1 AND cost_per_night <= $2 "
            ++ closing 3 |}.
Proof.
  intros q. subst q. split; [|split; [|split; [|split; [|split; [|split]]]]].
  - intros Hg.
    pose (before := (when (ToBoolean (options.city o)) (city_clause o)
                     ++ when (ToBoolean (options.owner_id o))
                          (owner_id_clause o))%list).
    destruct (clause_in_query o limit before
                (when (ToBoolean (options.maximum_price_per_night o))
                   (maximum_price_clause o)
                 ++ when (ToBoolean (options.minimum_rating o))
                      (minimum_rating_clause o))%list
                (minimum_price_clause o)) as [Hp Hs].
    { unfold applicable, before. rewrite Hg. cbn [when].
      now rewrite <- !app_assoc. }
    exists (S (List.length before)). split; [|split; [lia | exact Hs]].
    cbn [Nat.sub]. now rewrite Nat.sub_0_r, Hp.
  - intros Hg.
    pose (before := (when (ToBoolean (options.city o)) (city_clause o)
                     ++ when (ToBoolean (options.owner_id o))
                          (owner_id_clause o)
                     ++ when (ToBoolean (options.minimum_price_per_night o))
                          (minimum_price_clause o))%list).
    destruct (clause_in_query o limit before
                (when (ToBoolean (options.minimum_rating o))
                   (minimum_rating_clause o))
                (maximum_price_clause o)) as [Hp Hs].
    { unfold applicable, before. rewrite Hg. cbn [when].
      now rewrite <- !app_assoc. }
    exists (S (List.length before)). split; [|split; [lia | exact Hs]].
    cbn [Nat.sub]. now rewrite Nat.sub_0_r, Hp.
  - intros x v Hx Hv. now apply (times_integer_exact 100 x v).
  - intros v Hv. now apply (times_Num_exact 100 v).
  - reflexivity.
  - reflexivity.
  - reflexivity.
Qed.

(** C3.  For every options record and limit, the placeholders of the
    statement are [$1], [$2], ... in this order, one for each bound value:
    every step that binds a value pushes it and appends a predicate whose
    placeholder is the length of the list after the push, so the values
    are in the order of the predicates; the limit (10 when the caller
    gives none) is the last value, bound to the placeholder of the LIMIT
    clause, which follows GROUP BY properties.id and ORDER BY
    cost_per_night, with no DESC. *)
Theorem getAllProperties_placeholders_numbered
  (o : options.t) (limit : value) :
  let q := getAllProperties_query o limit in
  placeholders (queryString q) = seq 1 (List.length (queryParams q))
  /\ queryParams q
     = (map bound (applicable o) ++ [limit_or_default limit])%list
  /\ queryString q
     = base_clause ++ conjunction 1 (applicable o)
       ++ closing (List.length (queryParams q))
  /\ nth_error (queryParams q) (List.length (queryParams q) - 1)
     = Some (limit_or_default limit)
  /\ (forall b : builder,
        (if_city o b = b \/ appends (city_clause o) b (if_city o b))
        /\ (if_owner_id o b = b
            \/ appends (owner_id_clause o) b (if_owner_id o b))
        /\ (if_minimum_price_per_night o b = b
            \/ appends (minimum_price_clause o) b
                 (if_minimum_price_per_night o b))
        /\ (if_maximum_price_per_night o b = b
            \/ appends (maximum_price_clause o) b
                 (if_maximum_price_per_night o b))
        /\ (if_minimum_rating o b = b
            \/ appends (minimum_rating_clause o) b (if_minimum_rating o b))
        /\ queryParams (push_limit limit b) = (queryParams b ++ [limit])%list
        /\ queryString (push_limit limit b)
           = queryString b
             ++ closing (List.length (queryParams (push_limit limit b))))
  /\ (forall i : nat,
        closing i = "
  GROUP BY properties.id
  ORDER BY cost_per_night
  LIMIT $" ++ decimal i ++ ";
  ")
  /\ includes (queryString q) "DESC" = false.
Proof.
  intros q. subst q.
  split; [apply numbered_query|].
  split; [apply query_params|].
  split; [now rewrite query_params_length, query_string|].
  split.
  { rewrite query_params_length, query_params. cbn [Nat.sub].
    rewrite Nat.sub_0_r, nth_error_app2 by (rewrite length_map; lia).
    now rewrite length_map, Nat.sub_diag. }
  split.
  { intros b.
    pose proof (if_city_step o b) as H1.
    pose proof (if_owner_id_step o b) as H2.
    pose proof (if_minimum_price_per_night_step o b) as H3.
    pose proof (if_maximum_price_per_night_step o b) as H4.
    pose proof (if_minimum_rating_step o b) as H5.
    destruct (ToBoolean (options.city o)),
             (ToBoolean (options.owner_id o)),
             (ToBoolean (options.minimum_price_per_night o)),
             (ToBoolean (options.maximum_price_per_night o)),
             (ToBoolean (options.minimum_rating o));
      repeat split; auto. }
  split; [reflexivity|].
  by_guards o.
Qed.


(** C9 (amended).  An option whose value is falsy (the empty string, 0,
    -0, [NaN], [false], [null]) is treated as an absent one: the statement
    and the values are those built for the record without that option, so
    no predicate is appended and no value is bound for it, and a caller
    cannot filter on a falsy value passed as such.  In particular a record
    that asks for city "", owner_id 0, prices 0 and rating 0 builds the
    statement of the empty record.  A string that is not empty is truthy
    whatever it spells: as owner_id it is bound as the number it spells,
    so the value 0 is still reached through the string "0". *)
Theorem getAllProperties_falsy_option_is_absent
  (o : options.t) (limit : value) :
  getAllProperties_query o limit
  = getAllProperties_query (without_falsy o) limit
  /\ drop_falsy (VStr "") = VUndefined
  /\ drop_falsy (VNum (Num 0)) = VUndefined
  /\ drop_falsy (VNum (S754_zero true)) = VUndefined
  /\ drop_falsy (VNum NaN) = VUndefined
  /\ (forall (c : ascii) (s : string),
        getAllProperties_query
          {| options.city := VUndefined;
             options.owner_id := VStr (String c s);
             options.minimum_price_per_night := VUndefined;
             options.maximum_price_per_night := VUndefined;
             options.minimum_rating := VUndefined |} limit
        = {| queryParams :=
               [VNum (StringToNumber (String c s)); limit_or_default limit];
             queryString :=
               base_clause ++ "AND owner_id = $1 " ++ closing 2 |})
  /\ (List.length (queryParams (getAllProperties_query o limit))
      = S (List.length
             (filter ToBoolean
                [ options.city o; options.owner_id o;
                  options.minimum_price_per_night o;
                  options.maximum_price_per_night o;
                  options.minimum_rating o ])))%nat
  /\ getAllProperties_query
       {| options.city := VStr "";
          options.owner_id := VNum (Num 0);
          options.minimum_price_per_night := VNum (Num 0);
          options.maximum_price_per_night := VNum (Num 0);
          options.minimum_rating := VNum (Num 0) |} limit
     = getAllProperties_query no_options limit.
Proof.
  split; [|split; [|split; [|split; [|split; [|split; [|split]]]]]];
    try reflexivity.
  - now rewrite !query_rendered, applicable_without_falsy.
  - rewrite query_params_length. unfold applicable. cbn [filter].
    now destruct (ToBoolean (options.city o)),
                 (ToBoolean (options.owner_id o)),
                 (ToBoolean (options.minimum_price_per_night o)),
                 (ToBoolean (options.maximum_price_per_night o)),
                 (ToBoolean (options.minimum_rating o)).
Qed.


End getAllProperties_claims.

(** ** Reservation listing *)

Lemma group_insert_members {K A : Type} (eqb : K -> K -> bool) (P : A -> Prop)
  (k : K) (a : A) (gs : list (K * list A)) :
  P a ->
  Forall (fun g => Forall P (snd g)) gs ->
  Forall (fun g => Forall P (snd g)) (pool.group_insert eqb k a gs).
Proof.
  intros Ha Hgs. induction Hgs as [|[k' ms] gs Hg Hgs IH];
    cbn [pool.group_insert].
  - repeat constructor. exact Ha.
  - destruct (eqb k k'); constructor; try assumption.
    cbn [snd] in *. apply Forall_app. split; [assumption|].
    now constructor.
Qed.

(** The members of the groups are rows of the grouped list. *)
Lemma group_by_members {K A : Type} (eqb : K -> K -> bool) (key : A -> K)
  (P : A -> Prop) (l : list A) :
  Forall P l ->
  Forall (fun g => Forall P (snd g)) (pool.group_by eqb key l).
Proof.
  unfold pool.group_by.
  assert (G : forall acc,
             Forall P l ->
             Forall (fun g => Forall P (snd g)) acc ->
             Forall (fun g : K * list A => Forall P (snd g))
               (fold_left
                  (fun gs a => pool.group_insert eqb (key a) a gs) l acc)).
  { induction l as [|a l IH]; intros acc Hl Hacc; cbn [fold_left].
    - exact Hacc.
    - inversion Hl; subst. apply IH; [assumption|].
      now apply group_insert_members. }
  intros Hl. apply G; [assumption | constructor].
Qed.

Lemma from_reservations_joined (d : pool.db) (j : pool.joined) :
  In j (pool.from_reservations d) ->
  In (fst (fst j)) (pool.reservations d)
  /\ In (snd j) (pool.property_reviews d)
  /\ Reservations.property_id (fst (fst j)) = Properties.id (snd (fst j))
  /\ PropertyReviews.property_id (snd j) = Properties.id (snd (fst j)).
Proof.
  unfold pool.from_reservations.
  intros (r & Hr & Hj)%in_flat_map.
  apply in_flat_map in Hj as (p & Hp & Hj).
  destruct (Z.eqb_spec (Reservations.property_id r) (Properties.id p))
    as [Erp|]; [|contradiction].
  apply in_flat_map in Hj as (v & Hv & Hj).
  destruct (Z.eqb_spec (Properties.id p) (PropertyReviews.property_id v))
    as [Epv|]; [|contradiction].
  destruct Hj as [<-|[]]. cbn [fst snd]. auto.
Qed.

Lemma insert_by_start_date_In (tied : pool.listing -> pool.listing -> bool)
  (x y : pool.listing) (l : list pool.listing) :
  In y (pool.insert_by_start_date tied x l) -> y = x \/ In y l.
Proof.
  induction l as [|z l IH]; cbn [pool.insert_by_start_date].
  - intros [<-|[]]. now left.
  - destruct (_ || _).
    + intros [<-|Hy]; [now left | now right].
    + intros [<-|Hy]; [right; now left|].
      destruct (IH Hy) as [->|Hl]; [now left | right; now right].
Qed.

Lemma order_by_start_date_In (tied : pool.listing -> pool.listing -> bool)
  (y : pool.listing) (l : list pool.listing) :
  In y (pool.order_by_start_date tied l) -> In y l.
Proof.
  induction l as [|x l IH]; cbn [pool.order_by_start_date fold_right].
  - exact (fun F => F).
  - intros Hy. apply insert_by_start_date_In in Hy as [->|Hy];
      [now left | right; now apply IH].
Qed.

(** Whatever the store does with ties, inserting keeps the order of
    start_date. *)
Lemma insert_by_start_date_sorted
  (tied : pool.listing -> pool.listing -> bool)
  (x : pool.listing) (l : list pool.listing) :
  StronglySorted starts_no_later l ->
  StronglySorted starts_no_later (pool.insert_by_start_date tied x l).
Proof.
  induction 1 as [|y l Hl IH Hy]; cbn [pool.insert_by_start_date].
  - repeat constructor.
  - destruct (_ || _) eqn:E.
    + assert (Hxy : starts_no_later x y).
      { unfold starts_no_later.
        apply orb_true_iff in E as [E|[E _]%andb_true_iff]; lia. }
      constructor; [now constructor|]. constructor; [exact Hxy|].
      eapply Forall_impl; [|exact Hy]. unfold starts_no_later in *.
      intros; lia.
    + apply orb_false_iff in E as [E _].
      constructor; [exact IH|].
      apply Forall_forall. intros z Hz.
      apply insert_by_start_date_In in Hz as [->|Hz].
      * unfold starts_no_later. lia.
      * eapply Forall_forall in Hy; eauto.
Qed.

Lemma order_by_start_date_sorted
  (tied : pool.listing -> pool.listing -> bool) (l : list pool.listing) :
  StronglySorted starts_no_later (pool.order_by_start_date tied l).
Proof.
  induction l as [|x l IH]; cbn [pool.order_by_start_date fold_right].
  - constructor.
  - now apply insert_by_start_date_sorted.
Qed.

Lemma firstn_In {A : Type} (n : nat) (l : list A) (x : A) :
  In x (firstn n l) -> In x l.
Proof.
  revert l. induction n as [|n IH]; intros [|y l]; cbn [firstn];
    try contradiction.
  intros [->|Hx]; [now left | right; now apply IH].
Qed.

Lemma firstn_sorted {A : Type} (R : A -> A -> Prop) (n : nat) (l : list A) :
  StronglySorted R l -> StronglySorted R (firstn n l).
Proof.
  intros Hl. revert n. induction Hl as [|x l Hl IH Hx]; intros [|n];
    cbn [firstn]; try constructor.
  - apply IH.
  - apply Forall_forall. intros y Hy%firstn_In.
    eapply Forall_forall in Hx; eauto.
Qed.

Lemma select_listing_In (g : (Z * Z) * list pool.joined) (x : pool.listing) :
  In x (pool.select_listing g) ->
  exists j, In j (snd g)
            /\ pool.listed_property x = snd (fst j)
            /\ pool.listed_reservation x = fst (fst j).
Proof.
  unfold pool.select_listing. destruct (snd g) as [|[[r p] v] ms];
    [contradiction|].
  intros [<-|[]]. exists (r, p, v). split; [now left|]. now split.
Qed.

(** What a record of the listing is made of, before ordering and LIMIT. *)
Lemma listing_record (d : pool.db) (guest_id : Z) (x : pool.listing) :
  In x (flat_map pool.select_listing
          (pool.group_by pool.key_eqb pool.group_key
             (pool.where_guest guest_id (pool.from_reservations d)))) ->
  Reservations.guest_id (pool.listed_reservation x) = guest_id
  /\ In (pool.listed_reservation x) (pool.reservations d)
  /\ Reservations.property_id (pool.listed_reservation x)
     = Properties.id (pool.listed_property x)
  /\ reviewed d (Properties.id (pool.listed_property x)).
Proof.
  intros (g & Hg & Hx)%in_flat_map.
  apply select_listing_In in Hx as (j & Hj & -> & ->).
  pose proof (group_by_members pool.key_eqb pool.group_key
                (fun j => In j (pool.where_guest guest_id
                                  (pool.from_reservations d)))
                (pool.where_guest guest_id (pool.from_reservations d))) as G.
  rewrite !Forall_forall in G. specialize (G (fun _ H => H) g Hg).
  rewrite Forall_forall in G. specialize (G j Hj).
  unfold pool.where_guest in G. apply filter_In in G as [Hin Hguest].
  apply Z.eqb_eq in Hguest.
  apply from_reservations_joined in Hin as (Hr & Hv & Hrp & Hvp).
  repeat split; try assumption.
  exists (snd j). now split.
Qed.

(** ** The store on the fixed statements *)
Section store_facts.

Context `{pool.Engine}.

Lemma run_getUserWithEmail (email : string) (d : pool.db) :
  pool.run {| pool.text := sql.getUserWithEmail;
              pool.values := [VStr email] |} d
  = (d, pool.Resolved {| pool.rows := pool.select_user_by_email email d |}).
Proof. reflexivity. Qed.

Lemma run_getUserWithId (id : Z) (d : pool.db) :
  pool.run {| pool.text := sql.getUserWithId;
              pool.values := [VNum (Num id)] |} d
  = (d, pool.Resolved {| pool.rows := pool.select_user_by_id id d |}).
Proof.
  unfold pool.run, pool.integer_column. cbn [pool.text pool.values].
  now rewrite integer_of_Num.
Qed.

Lemma run_addUser (name email password : string) (d : pool.db) :
  pool.run {| pool.text := sql.addUser;
              pool.values := [VStr name; VStr email; VStr password] |} d
  = pool.insert_user name email password d.
Proof. reflexivity. Qed.

Lemma run_getAllReservations (guest_id limit : Z) (d : pool.db) :
  pool.run {| pool.text := sql.getAllReservations;
              pool.values := [VNum (Num guest_id); VNum (Num limit)] |} d
  = (d, pool.select_reservations
          {| pool.text := sql.getAllReservations;
             pool.values := [VNum (Num guest_id); VNum (Num limit)] |}
          guest_id limit d).
Proof.
  unfold pool.run, pool.integer_column. cbn [pool.text pool.values].
  now rewrite !integer_of_Num.
Qed.

Lemma run_addProperty (values : list value) (d : pool.db) :
  pool.run {| pool.text := sql.addProperty; pool.values := values |} d
  = pool.insert_property values d.
Proof. reflexivity. Qed.

End store_facts.

Section store_claims.

Context `{pool.Engine}.

(** C5.  For every guest_id and limit (10 when the caller gives none),
    [getAllReservations] sends its one statement, and the store, which
    refuses a negative limit, answers with at most [limit] combined
    property, reservation and average-rating records: each carries a
    reservation of the given guest together with the property it is for,
    the records are in non-decreasing order of start_date, and, the join
    to property_reviews being an inner join, each property has a review,
    so no reservation for a property without reviews is listed. *)
Theorem getAllReservations_listing
  (guest_id : Z) (limit : option Z) (s : pool.state) :
  let n := match limit with Some l => l | None => 10 end in
  let d := pool.store s in
  pool.received (fst (getAllReservations guest_id limit s))
  = (pool.received s
     ++ [ {| pool.text := sql.getAllReservations;
             pool.values := [VNum (Num guest_id); VNum (Num n)] |} ])%list
  /\ includes sql.getAllReservations
       "JOIN property_reviews ON properties.id = property_reviews.property_id"
     = true
  /\ includes sql.getAllReservations "LEFT JOIN" = false
  /\ match snd (getAllReservations guest_id limit s) with
     | pool.Resolved rows =>
         0 <= n
         /\ Z.of_nat (List.length rows) <= n
         /\ exists ls : list pool.listing,
              rows = map pool.ListingRow ls
              /\ Forall
                   (fun x =>
                      Reservations.guest_id (pool.listed_reservation x)
                      = guest_id
                      /\ In (pool.listed_reservation x) (pool.reservations d)
                      /\ Reservations.property_id (pool.listed_reservation x)
                         = Properties.id (pool.listed_property x)
                      /\ reviewed d (Properties.id (pool.listed_property x)))
                   ls
              /\ StronglySorted starts_no_later ls
              /\ forall r : Reservations.row,
                   In r (pool.reservations d) ->
                   ~ reviewed d (Reservations.property_id r) ->
                   forall x, In x ls -> pool.listed_reservation x <> r
     | pool.Rejected e => n < 0 /\ e = pool.negative_limit
     end.
Proof.
  intros n d. unfold getAllReservations. fold n.
  split; [now rewrite then_state, query_received|].
  split; [reflexivity|]. split; [reflexivity|].
  rewrite then_outcome, query_outcome, run_getAllReservations.
  cbn [snd]. unfold pool.select_reservations. fold d.
  destruct (Z.ltb_spec n 0) as [Hneg|Hpos]; [now split|].
  cbn [pool.rows].
  set (records :=
         flat_map pool.select_listing
           (pool.group_by pool.key_eqb pool.group_key
              (pool.where_guest guest_id (pool.from_reservations d)))).
  set (tied := pool.tie_break _ d).
  assert (Hrec : forall x,
             In x (firstn (Z.to_nat n)
                     (pool.order_by_start_date tied records)) ->
             In x records).
  { intros x Hx%firstn_In. now apply order_by_start_date_In in Hx. }
  split; [exact Hpos|]. split.
  { rewrite length_map.
    pose proof (firstn_le_length (Z.to_nat n)
                  (pool.order_by_start_date tied records)). lia. }
  eexists. split; [reflexivity|]. split; [|split].
  - apply Forall_forall. intros x Hx. apply (listing_record d guest_id).
    now apply Hrec.
  - apply firstn_sorted, order_by_start_date_sorted.
  - intros r Hr Hnone x Hx Ex.
    apply Hrec, (listing_record d guest_id) in Hx as (_ & _ & E & Hrev).
    apply Hnone. now rewrite <- Ex, E.
Qed.

Lemma first_row_find {A : Type} (f : A -> bool) (g : A -> pool.row) (l : list A) :
  nth_error (map g (filter f l)) 0 = option_map g (find f l).
Proof.
  induction l as [|a l IH]; cbn [filter find]; [reflexivity|].
  now destruct (f a).
Qed.

(** C6.  [getUserWithEmail] (respectively [getUserWithId]) sends an
    exact-match statement on the email column (respectively the primary
    key) and resolves to the first user row that matches, or to an absent
    value when none does: for an email that no row of the table has, the
    result is absent, and a record returned for an id has that id. *)
Theorem getUser_exact_match (email : string) (id : Z) (s : pool.state) :
  let d := pool.store s in
  fst (getUserWithEmail email s)
  = {| pool.store := d;
       pool.received :=
         pool.received s
         ++ [ {| pool.text := sql.getUserWithEmail;
                 pool.values := [VStr email] |} ] |}
  /\ snd (getUserWithEmail email s)
     = pool.Resolved
         (option_map pool.UserRow
            (find (fun u => (Users.email u =? email)%string) (pool.users d)))
  /\ includes sql.getUserWithEmail "WHERE email = $1" = true
  /\ fst (getUserWithId id s)
     = {| pool.store := d;
          pool.received :=
            pool.received s
            ++ [ {| pool.text := sql.getUserWithId;
                    pool.values := [VNum (Num id)] |} ] |}
  /\ snd (getUserWithId id s)
     = pool.Resolved
         (option_map pool.UserRow
            (find (fun u => Users.id u =? id) (pool.users d)))
  /\ includes sql.getUserWithId "WHERE id = $1" = true
  /\ ((forall u, In u (pool.users d) -> Users.email u <> email) ->
      snd (getUserWithEmail email s) = pool.Resolved None)
  /\ (forall r, snd (getUserWithEmail email s) = pool.Resolved (Some r) ->
      exists u, r = pool.UserRow u /\ In u (pool.users d)
                /\ Users.email u = email)
  /\ (forall r, snd (getUserWithId id s) = pool.Resolved (Some r) ->
      exists u, r = pool.UserRow u /\ In u (pool.users d) /\ Users.id u = id)
  /\ ((exists u, In u (pool.users d) /\ Users.id u = id) ->
      exists u, snd (getUserWithId id s) = pool.Resolved (Some (pool.UserRow u))
                /\ Users.id u = id).
Proof.
  intros d.
  assert (Ee : snd (getUserWithEmail email s)
               = pool.Resolved
                   (option_map pool.UserRow
                      (find (fun u => (Users.email u =? email)%string)
                         (pool.users d)))).
  { unfold getUserWithEmail.
    rewrite then_outcome, query_outcome, run_getUserWithEmail.
    cbn [snd pool.rows]. unfold pool.select_user_by_email.
    now rewrite first_row_find. }
  assert (Ei : snd (getUserWithId id s)
               = pool.Resolved
                   (option_map pool.UserRow
                      (find (fun u => Users.id u =? id) (pool.users d)))).
  { unfold getUserWithId.
    rewrite then_outcome, query_outcome, run_getUserWithId.
    cbn [snd pool.rows]. unfold pool.select_user_by_id.
    now rewrite first_row_find. }
  split; [reflexivity|]. split; [exact Ee|]. split; [reflexivity|].
  split.
  { unfold getUserWithId, pool.then_, pool.query.
    now rewrite run_getUserWithId. }
  split; [exact Ei|]. split; [reflexivity|].
  split; [|split; [|split]].
  - intros Hnone. rewrite Ee.
    destruct (find _ (pool.users d)) as [u|] eqn:F; [|reflexivity].
    apply find_some in F as [Hu Hm]. apply String.eqb_eq in Hm.
    now elim (Hnone u Hu).
  - intros r. rewrite Ee.
    destruct (find _ (pool.users d)) as [u|] eqn:F; cbn [option_map];
      [|discriminate].
    intros [= <-]. apply find_some in F as [Hu Hm].
    apply String.eqb_eq in Hm. now exists u.
  - intros r. rewrite Ei.
    destruct (find (fun u => Users.id u =? id) _) as [u|] eqn:F;
      cbn [option_map];
      [|discriminate].
    intros [= <-]. apply find_some in F as [Hu Hm].
    apply Z.eqb_eq in Hm. now exists u.
  - intros (u & Hu & Hid). rewrite Ei.
    destruct (find (fun u => Users.id u =? id) _) as [u'|] eqn:F.
    + exists u'. split; [reflexivity|].
      apply find_some in F as [_ Hm]. now apply Z.eqb_eq in Hm.
    + apply (find_none _ _ F) in Hu. cbv beta in Hu.
      apply Z.eqb_neq in Hu. now elim Hu.
Qed.

Lemma is_null_number_field (f : option Z) :
  pool.is_null (property.number_field f) = negb (present f).
Proof. now destruct f. Qed.

Lemma is_null_string_field (f : option string) :
  pool.is_null (property.string_field f) = negb (present f).
Proof. now destruct f. Qed.

Lemma missing_field (p : property.t) :
  existsb pool.is_null (bound_values p) = negb (complete p).
Proof.
  unfold bound_values, complete. cbn [existsb forallb].
  rewrite !is_null_number_field, !is_null_string_field.
  rewrite !negb_andb. reflexivity.
Qed.

(** The row that the store forms from a complete record. *)
Lemma property_of_bound_values (id : Z) (p : property.t) :
  complete p = true ->
  exists r,
    pool.property_of_values id (bound_values p) = Some r
    /\ Properties.id r = id
    /\ Properties.active r = true
    /\ property.owner_id p = Some (Properties.owner_id r)
    /\ property.title p = Some (Properties.title r)
    /\ property.description p = Some (Properties.description r)
    /\ property.thumbnail_photo_url p
       = Some (Properties.thumbnail_photo_url r)
    /\ property.cover_photo_url p = Some (Properties.cover_photo_url r)
    /\ property.cost_per_night p = Some (Properties.cost_per_night r)
    /\ property.street p = Some (Properties.street r)
    /\ property.city p = Some (Properties.city r)
    /\ property.province p = Some (Properties.province r)
    /\ property.post_code p = Some (Properties.post_code r)
    /\ property.country p = Some (Properties.country r)
    /\ property.parking_spaces p = Some (Properties.parking_spaces r)
    /\ property.number_of_bathrooms p
       = Some (Properties.number_of_bathrooms r)
    /\ property.number_of_bedrooms p
       = Some (Properties.number_of_bedrooms r).
Proof.
  destruct p as [f1 f2 f3 f4 f5 f6 f7 f8 f9 f10 f11 f12 f13 f14 a].
  unfold complete, bound_values.
  cbn [property.owner_id property.title property.description
       property.thumbnail_photo_url property.cover_photo_url
       property.cost_per_night property.street property.city
       property.province property.post_code property.country
       property.parking_spaces property.number_of_bathrooms
       property.number_of_bedrooms].
  destruct f1 as [x1|]; [|discriminate].
  destruct f2 as [x2|]; [|discriminate].
  destruct f3 as [x3|]; [|discriminate].
  destruct f4 as [x4|]; [|discriminate].
  destruct f5 as [x5|]; [|discriminate].
  destruct f6 as [x6|]; [|discriminate].
  destruct f7 as [x7|]; [|discriminate].
  destruct f8 as [x8|]; [|discriminate].
  destruct f9 as [x9|]; [|discriminate].
  destruct f10 as [x10|]; [|discriminate].
  destruct f11 as [x11|]; [|discriminate].
  destruct f12 as [x12|]; [|discriminate].
  destruct f13 as [x13|]; [|discriminate].
  destruct f14 as [x14|]; [|discriminate].
  intros _. unfold pool.property_of_values, pool.integer_column.
  cbn [property.number_field property.string_field pool.text_column].
  rewrite !integer_of_Num. eexists. split; [reflexivity|].
  cbn. repeat split.
Qed.

(** C7 (amended).  For every property record, [addProperty] sends the insert
    statement with the fourteen fields of the record bound to [$1] ...
    [$14], in the order of the column list; the fifteenth column, active,
    is the literal [true], and the statement ends in RETURNING *.  When
    the operation resolves, it resolves to the row that was inserted: its
    fourteen columns are the caller's, and its active column is [true]
    whatever active value the record carried.  It resolves exactly when
    the store takes the row: no value is out of range, no field is
    missing and the owner is a user; otherwise it is rejected with the
    store's error and the table is as it was. *)
Theorem addProperty_active_true (p : property.t) (s : pool.state) :
  let d := pool.store s in
  pool.received (fst (addProperty p s))
  = (pool.received s
     ++ [ {| pool.text := sql.addProperty;
             pool.values := bound_values p |} ])%list
  /\ List.length (bound_values p) = 14%nat
  /\ placeholders sql.addProperty = seq 1 14
  /\ includes sql.addProperty
       "owner_id, title, description, thumbnail_photo_url, cover_photo_url, cost_per_night, street, city, province, post_code, country, parking_spaces, number_of_bathrooms, number_of_bedrooms, active)"
     = true
  /\ includes sql.addProperty "$14, true)" = true
  /\ includes sql.addProperty "RETURNING *;" = true
  /\ resolves (snd (addProperty p s))
     = negb (pool.out_of_range (bound_values p))
       && complete p && owner_is_user p d
  /\ match snd (addProperty p s) with
     | pool.Resolved res =>
         exists r : Properties.row,
           res = Some (pool.PropertyRow r)
           /\ pool.properties (pool.store (fst (addProperty p s)))
              = (pool.properties d ++ [r])%list
           /\ Properties.active r = true
           /\ Properties.id r = pool.properties_id_seq d + 1
           /\ property.owner_id p = Some (Properties.owner_id r)
           /\ property.title p = Some (Properties.title r)
           /\ property.description p = Some (Properties.description r)
           /\ property.thumbnail_photo_url p
              = Some (Properties.thumbnail_photo_url r)
           /\ property.cover_photo_url p
              = Some (Properties.cover_photo_url r)
           /\ property.cost_per_night p
              = Some (Properties.cost_per_night r)
           /\ property.street p = Some (Properties.street r)
           /\ property.city p = Some (Properties.city r)
           /\ property.province p = Some (Properties.province r)
           /\ property.post_code p = Some (Properties.post_code r)
           /\ property.country p = Some (Properties.country r)
           /\ property.parking_spaces p
              = Some (Properties.parking_spaces r)
           /\ property.number_of_bathrooms p
              = Some (Properties.number_of_bathrooms r)
           /\ property.number_of_bedrooms p
              = Some (Properties.number_of_bedrooms r)
     | pool.Rejected e =>
         pool.properties (pool.store (fst (addProperty p s)))
         = pool.properties d
         /\ (e = pool.value_out_of_range
             \/ e = pool.not_null_violation
             \/ e = pool.foreign_key_violation "properties_owner_id_fkey")
     end.
Proof.
  intros d.
  split; [unfold addProperty; now rewrite then_state, query_received|].
  do 5 (split; [reflexivity|]).
  unfold addProperty. fold (bound_values p).
  rewrite then_outcome, query_outcome, then_state, query_store,
    run_addProperty.
  unfold pool.insert_property. fold d. rewrite missing_field.
  destruct (pool.out_of_range (bound_values p)); cbn [negb andb].
  { split; [reflexivity|]. cbn. split; [reflexivity | now left]. }
  destruct (complete p) eqn:Hc; cbn [negb andb].
  2:{ split; [reflexivity|]. cbn. split; [reflexivity | right; now left]. }
  destruct (property_of_bound_values (pool.properties_id_seq d + 1) p Hc)
    as (r & -> & Hid & Hact & Hcols).
  assert (Ho : owner_is_user p d = pool.owner_exists (Properties.owner_id r) d).
  { unfold owner_is_user. now rewrite (proj1 Hcols). }
  rewrite Ho.
  destruct (pool.owner_exists (Properties.owner_id r) d).
  - split; [reflexivity|]. cbn. exists r. auto.
  - split; [reflexivity|]. cbn. split; [reflexivity | right; now right].
Qed.

(** C8.  For every user record, [addUser] sends one statement, the insert,
    with name, email and password bound as given; the statement has no
    RETURNING clause.  When no row has the email, the row is inserted with
    these three values and the operation resolves to an absent value;
    when a row has it, nothing is inserted and the operation is rejected
    with the store's uniqueness error. *)
Theorem addUser_resolves_absent (u : user.t) (s : pool.state) :
  let d := pool.store s in
  pool.received (fst (addUser u s))
  = (pool.received s
     ++ [ {| pool.text := sql.addUser;
             pool.values :=
               [VStr (user.name u); VStr (user.email u);
                VStr (user.password u)] |} ])%list
  /\ includes sql.addUser "RETURNING" = false
  /\ snd (addUser u s)
     = (if pool.email_taken (user.email u) d
        then pool.Rejected (pool.unique_violation "users_email_key")
        else pool.Resolved None)
  /\ pool.users (pool.store (fst (addUser u s)))
     = (if pool.email_taken (user.email u) d
        then pool.users d
        else (pool.users d
              ++ [ {| Users.id := pool.users_id_seq d + 1;
                      Users.name := user.name u;
                      Users.email := user.email u;
                      Users.password := user.password u |} ])%list).
Proof.
  intros d. unfold addUser.
  split; [now rewrite then_state, query_received|].
  split; [reflexivity|].
  rewrite then_outcome, query_outcome, then_state, query_store, run_addUser.
  unfold pool.insert_user. fold d.
  now destruct (pool.email_taken (user.email u) d).
Qed.

End store_claims.

(** ** The claims on examples *)

(** C1 as stated fails on a supplied but empty city: the option is in the
    record, yet the statement has no predicate on city and no value is
    bound for it; it is the statement of the empty record. *)
Lemma getAllProperties_empty_city_not_filtered :
  supplied (options.city empty_city_options)
  /\ includes
       (queryString (getAllProperties_query empty_city_options VUndefined))
       "city ILIKE" = false
  /\ queryParams (getAllProperties_query empty_city_options VUndefined)
     = [VNum (Num 10)]
  /\ queryString (getAllProperties_query empty_city_options VUndefined)
     = base_clause ++ closing 1.
Proof.
  split; [discriminate|]. repeat split.
Qed.

(** C2 as stated fails on minimum_price_per_night 0: the option is in the
    record with value 0, yet no value is bound for it and the statement
    does not constrain cost_per_night.  It also fails on
    minimum_price_per_night 9007199254740994: the value bound is
    900719925474099456, the double nearest to the product, and not
    100 * 9007199254740994. *)
Lemma getAllProperties_zero_price_not_bound :
  (supplied (options.minimum_price_per_night zero_minimum_price_options)
   /\ Number (options.minimum_price_per_night zero_minimum_price_options)
      = Num 0
   /\ queryParams
        (getAllProperties_query zero_minimum_price_options VUndefined)
      = [VNum (Num 10)]
   /\ includes
        (queryString
           (getAllProperties_query zero_minimum_price_options VUndefined))
        "cost_per_night >=" = false)
  /\ (exists x : number,
        queryParams
          (getAllProperties_query huge_minimum_price_options VUndefined)
        = [VNum x; VNum (Num 10)]
        /\ integer_of x = Some 900719925474099456
        /\ 900719925474099456 <> 100 * 9007199254740994).
Proof.
  split.
  - split; [discriminate|]. repeat split.
  - eexists. split; [reflexivity|]. split; [reflexivity | discriminate].
Qed.

(** C9 as stated fails on owner_id "0": the string is truthy, the value
    bound to [$1] is the number 0, and the statement filters on
    owner_id = 0. *)
Lemma getAllProperties_filters_on_zero :
  ToBoolean (options.owner_id zero_spelled_owner_options) = true
  /\ queryParams
       (getAllProperties_query zero_spelled_owner_options VUndefined)
     = [VNum (Num 0); VNum (Num 10)]
  /\ queryString
       (getAllProperties_query zero_spelled_owner_options VUndefined)
     = base_clause ++ "AND owner_id = $1 " ++ closing 2.
Proof. repeat split. Qed.

(** C7 as stated fails on a record whose owner is not a user: the record
    has every field, yet the store refuses the row, the operation is
    rejected and nothing is inserted.  For an owner who is a user the same
    record is inserted, with active [true] although the record says
    [false]. *)
Lemma addProperty_unknown_owner_rejected :
  complete (sample_record 99 (Some false)) = true
  /\ snd (addProperty (sample_record 99 (Some false)) (fresh sample_db))
     = pool.Rejected (pool.foreign_key_violation "properties_owner_id_fkey")
  /\ pool.properties
       (pool.store
          (fst (addProperty (sample_record 99 (Some false))
                  (fresh sample_db))))
     = pool.properties sample_db
  /\ exists r,
       snd (addProperty (sample_record 1 (Some false)) (fresh sample_db))
       = pool.Resolved (Some (pool.PropertyRow r))
       /\ Properties.active r = true.
Proof.
  split; [reflexivity|]. split; [reflexivity|]. split; [reflexivity|].
  eexists. split; reflexivity.
Qed.

Lemma getAllProperties_price_in_cents_witness :
  (exists k : nat,
     nth_error
       (queryParams (getAllProperties_query price_range_options VUndefined))
       (k - 1) = Some (VNum (Num 5000))
     /\ (1 <= k)%nat
     /\ includes
          (queryString (getAllProperties_query price_range_options VUndefined))
          ("AND cost_per_night >= $" ++ decimal k ++ " ") = true)
  /\ (exists k : nat,
        nth_error
          (queryParams (getAllProperties_query price_range_options VUndefined))
          (k - 1) = Some (VNum (Num 10000))
        /\ (1 <= k)%nat
        /\ includes
             (queryString
                (getAllProperties_query price_range_options VUndefined))
             ("AND cost_per_night <= $" ++ decimal k ++ " ") = true)
  /\ times (Num 100) (Num 50) = Num (100 * 50).
Proof.
  pose proof (getAllProperties_price_in_cents price_range_options VUndefined)
    as T.
  cbv zeta in T. destruct T as (Hmin & Hmax & _ & Hexact & _).
  split; [|split].
  - apply Hmin. reflexivity.
  - apply Hmax. reflexivity.
  - apply Hexact. reflexivity.
Defined.


Lemma getAllReservations_listing_witness :
  match snd (getAllReservations 7 (Some 2) (fresh sample_db)) with
  | pool.Resolved rows =>
      Z.of_nat (List.length rows) <= 2
      /\ forall x, In (pool.ListingRow x) rows ->
                   pool.listed_reservation x <> sample_reservation 3 7 3 5
  | pool.Rejected _ => False
  end.
Proof.
  pose proof (getAllReservations_listing 7 (Some 2) (fresh sample_db)) as T.
  cbv zeta in T. destruct T as (_ & _ & _ & T).
  destruct (snd (getAllReservations 7 (Some 2) (fresh sample_db)))
    as [rows|e].
  - destruct T as (_ & Hlen & ls & -> & _ & _ & Hnone).
    split; [exact Hlen|]. intros x Hx.
    apply (Hnone (sample_reservation 3 7 3 5)).
    + cbn. auto.
    + intros (v & Hv & E). cbn in Hv.
      destruct Hv as [<-|[<-|[<-|[]]]]; discriminate E.
    + apply in_map_iff in Hx as (y & [= ->] & Hy). exact Hy.
  - destruct T as [Hneg _]. discriminate Hneg.
Defined.

Lemma getUser_exact_match_witness :
  snd (getUserWithEmail "nobody@x.com" (fresh sample_db)) = pool.Resolved None
  /\ exists u,
       snd (getUserWithId 1 (fresh sample_db))
       = pool.Resolved (Some (pool.UserRow u))
       /\ Users.id u = 1.
Proof.
  pose proof (getUser_exact_match "nobody@x.com" 1 (fresh sample_db)) as T.
  cbv zeta in T.
  destruct T as (_ & _ & _ & _ & _ & _ & Hnone & _ & _ & Hvalid).
  split.
  - apply Hnone. cbn. intros u [<-|[]]. discriminate.
  - apply Hvalid. eexists. split; [left; reflexivity | reflexivity].
Defined.

(** * Further properties of the module *)

(** ** The search statement *)
Section getAllProperties_more.

Context `{Runtime} `{pool.Engine}.

(** The text of the search statement depends on which options are truthy
    and on nothing else: two records with the same guards build the same
    text, whatever their values and limits, so no caller-supplied text
    ever reaches the statement. *)
Theorem queryString_depends_on_guards_only
  (o o' : options.t) (limit limit' : value) :
  ToBoolean (options.city o) = ToBoolean (options.city o') ->
  ToBoolean (options.owner_id o) = ToBoolean (options.owner_id o') ->
  ToBoolean (options.minimum_price_per_night o)
  = ToBoolean (options.minimum_price_per_night o') ->
  ToBoolean (options.maximum_price_per_night o)
  = ToBoolean (options.maximum_price_per_night o') ->
  ToBoolean (options.minimum_rating o)
  = ToBoolean (options.minimum_rating o') ->
  queryString (getAllProperties_query o limit)
  = queryString (getAllProperties_query o' limit').
Proof.
  intros E1 E2 E3 E4 E5. rewrite !query_string. unfold applicable.
  rewrite E1, E2, E3, E4, E5.
  destruct (ToBoolean (options.city o')),
           (ToBoolean (options.owner_id o')),
           (ToBoolean (options.minimum_price_per_night o')),
           (ToBoolean (options.maximum_price_per_night o')),
           (ToBoolean (options.minimum_rating o'));
    vm_compute; reflexivity.
Qed.

(** A truthy city is always the first bound value, wrapped in [%] on both
    sides, and its predicate, on [$1], comes right after the base clause;
    for a string the value is the string itself between the two [%]. *)
Theorem getAllProperties_city_first
  (o : options.t) (limit : value) :
  ToBoolean (options.city o) = true ->
  let q := getAllProperties_query o limit in
  nth_error (queryParams q) 0
  = Some (VStr ("%" ++ ToString (options.city o) ++ "%"))
  /\ prefix (base_clause ++ "AND city ILIKE $1 ") (queryString q) = true
  /\ forall s : string,
       options.city o = VStr s ->
       nth_error (queryParams q) 0 = Some (VStr ("%" ++ s ++ "%")).
Proof.
  intros Hg q. subst q.
  assert (E : nth_error (queryParams (getAllProperties_query o limit)) 0
              = Some (VStr ("%" ++ ToString (options.city o) ++ "%"))).
  { rewrite query_params. unfold applicable. rewrite Hg. reflexivity. }
  split; [exact E|]. split.
  - rewrite query_string. unfold applicable. rewrite Hg.
    cbn [when List.app conjunction].
    change (conjunct 1 (city_clause o)) with "AND city ILIKE $1 ".
    rewrite append_assoc, <- (append_assoc base_clause).
    apply prefix_append.
  - intros s Hs. rewrite E, Hs. reflexivity.
Qed.

Lemma not_a_fixed_statement (rest : string) :
  (base_clause ++ rest =? sql.getUserWithEmail)%string = false
  /\ (base_clause ++ rest =? sql.getUserWithId)%string = false
  /\ (base_clause ++ rest =? sql.addUser)%string = false
  /\ (base_clause ++ rest =? sql.getAllReservations)%string = false
  /\ (base_clause ++ rest =? sql.addProperty)%string = false.
Proof. repeat split. Qed.

(** [getAllProperties] hands its statement to the store's evaluator and
    passes the answer on: the rows as they come and in their order, a
    rejection with the evaluator's error unchanged.  It catches nothing
    and retries nothing: the pool sees the one statement. *)
Theorem getAllProperties_passes_answer_on
  (o : options.t) (limit : value) (s : pool.state) :
  let q := {| pool.text := queryString (getAllProperties_query o limit);
              pool.values := queryParams (getAllProperties_query o limit) |} in
  getAllProperties o limit s
  = ({| pool.store := fst (pool.evaluate q (pool.store s));
        pool.received := pool.received s ++ [q] |},
     match snd (pool.evaluate q (pool.store s)) with
     | pool.Resolved res => pool.Resolved (pool.rows res)
     | pool.Rejected e => pool.Rejected e
     end).
Proof.
  intros q. unfold getAllProperties, pool.then_, pool.query. fold q.
  assert (R : pool.run q (pool.store s) = pool.evaluate q (pool.store s)).
  { unfold pool.run, q. cbn [pool.text pool.values]. rewrite query_string.
    destruct (not_a_fixed_statement
                (conjunction 1 (applicable o)
                 ++ closing (S (List.length (applicable o)))))
      as (-> & -> & -> & -> & ->).
    reflexivity. }
  rewrite R. now destruct (pool.evaluate q (pool.store s)).
Qed.

End getAllProperties_more.

(** ** Grouping *)
Section grouping.

Context {K A : Type} (eqb : K -> K -> bool) (key : A -> K).

Hypothesis eqb_eq : forall k k', eqb k k' = true <-> k = k'.

Lemma group_insert_keeps (k : K) (a m : A) (gs : list (K * list A)) :
  (exists g, In g gs /\ In m (snd g)) ->
  exists g, In g (pool.group_insert eqb k a gs) /\ In m (snd g).
Proof.
  induction gs as [|[k' ms] gs IH]; intros (g & Hg & Hm); [contradiction|].
  cbn [pool.group_insert]. destruct Hg as [<-|Hg].
  - destruct (eqb k k').
    + eexists. split; [left; reflexivity|]. cbn [snd] in *.
      apply in_or_app. now left.
    + eexists. split; [left; reflexivity | exact Hm].
  - destruct (eqb k k').
    + exists g. split; [now right | exact Hm].
    + destruct IH as (g' & Hg' & Hm'); [now exists g|].
      exists g'. split; [now right | exact Hm'].
Qed.

Lemma group_insert_adds (k : K) (a : A) (gs : list (K * list A)) :
  exists g, In g (pool.group_insert eqb k a gs) /\ In a (snd g).
Proof.
  induction gs as [|[k' ms] gs IH]; cbn [pool.group_insert].
  - eexists. split; [left; reflexivity | now left].
  - destruct (eqb k k').
    + eexists. split; [left; reflexivity|]. cbn [snd].
      apply in_or_app. right. now left.
    + destruct IH as (g & Hg & Ha). exists g. split; [now right | exact Ha].
Qed.

(** Every row of the grouped list is in one of the groups. *)
Lemma group_by_complete (l : list A) (a : A) :
  In a l -> exists g, In g (pool.group_by eqb key l) /\ In a (snd g).
Proof.
  unfold pool.group_by.
  assert (G : forall acc,
             (exists g, In g acc /\ In a (snd g)) \/ In a l ->
             exists g,
               In g (fold_left
                       (fun gs x => pool.group_insert eqb (key x) x gs) l acc)
               /\ In a (snd g)).
  { induction l as [|x l IH]; intros acc [Hacc|Hl]; cbn [fold_left];
      try assumption; try contradiction.
    - apply IH. left. now apply group_insert_keeps.
    - apply IH. destruct Hl as [->|Hl]; [left | now right].
      apply group_insert_adds. }
  intros Ha. apply G. now right.
Qed.

(** The members of a group have the key of the group. *)
Lemma group_by_keyed (l : list A) :
  Forall (fun g => Forall (fun m => key m = fst g) (snd g))
    (pool.group_by eqb key l).
Proof.
  unfold pool.group_by.
  assert (G : forall acc,
             Forall (fun g => Forall (fun m => key m = fst g) (snd g)) acc ->
             Forall (fun g : K * list A =>
                       Forall (fun m => key m = fst g) (snd g))
               (fold_left
                  (fun gs x => pool.group_insert eqb (key x) x gs) l acc)).
  { induction l as [|x l IH]; intros acc Hacc; cbn [fold_left];
      [exact Hacc|].
    apply IH. clear IH.
    induction Hacc as [|[k' ms] gs Hg Hgs IHgs]; cbn [pool.group_insert].
    - repeat constructor.
    - destruct (eqb (key x) k') eqn:E; constructor; try assumption.
      cbn [fst snd] in *. apply Forall_app. split; [assumption|].
      constructor; [now apply eqb_eq | constructor]. }
  apply G. constructor.
Qed.

Lemma group_insert_keys (k : K) (a : A) (gs : list (K * list A)) :
  map fst (pool.group_insert eqb k a gs) = map fst gs
  \/ (map fst (pool.group_insert eqb k a gs) = (map fst gs ++ [k])%list
      /\ ~ In k (map fst gs)).
Proof.
  induction gs as [|[k' ms] gs IH]; cbn [pool.group_insert map].
  - right. split; [reflexivity | exact (fun F => F)].
  - destruct (eqb k k') eqn:E; cbn [map fst]; [now left|].
    destruct IH as [->|[-> Hk]]; [now left|right].
    split; [reflexivity|]. intros [<-|Hin]; [|now apply Hk].
    assert (T : eqb k' k' = true) by now apply eqb_eq.
    congruence.
Qed.

(** No two groups have the same key. *)
Lemma group_by_NoDup (l : list A) :
  NoDup (map fst (pool.group_by eqb key l)).
Proof.
  unfold pool.group_by.
  assert (G : forall acc,
             NoDup (map fst acc) ->
             NoDup (map fst
                      (fold_left
                         (fun gs x => pool.group_insert eqb (key x) x gs)
                         l acc))).
  { induction l as [|x l IH]; intros acc Hacc; cbn [fold_left];
      [exact Hacc|].
    apply IH.
    destruct (group_insert_keys (key x) x acc) as [->|[-> Hk]];
      [exact Hacc|].
    apply NoDup_app; [exact Hacc | repeat constructor; intros [] |].
    intros k Hin [<-|[]]. now apply Hk. }
  apply G. constructor.
Qed.

End grouping.

(** ** The reservation listing, further *)

Lemma key_eqb_eq (k k' : Z * Z) : pool.key_eqb k k' = true <-> k = k'.
Proof.
  destruct k as [a b], k' as [a' b']. unfold pool.key_eqb. cbn [fst snd].
  rewrite andb_true_iff, !Z.eqb_eq. split; [intros [-> ->] | intros [= -> ->]];
    auto.
Qed.

Lemma insert_by_start_date_perm (tied : pool.listing -> pool.listing -> bool)
  (x : pool.listing) (l : list pool.listing) :
  Permutation (x :: l) (pool.insert_by_start_date tied x l).
Proof.
  induction l as [|y l IH]; cbn [pool.insert_by_start_date].
  - apply Permutation_refl.
  - destruct (_ || _); [apply Permutation_refl|].
    eapply perm_trans; [apply perm_swap|]. now apply perm_skip.
Qed.

(** Ordering rearranges the records and neither drops nor repeats one. *)
Lemma order_by_start_date_perm (tied : pool.listing -> pool.listing -> bool)
  (l : list pool.listing) :
  Permutation l (pool.order_by_start_date tied l).
Proof.
  induction l as [|x l IH]; cbn [pool.order_by_start_date fold_right].
  - apply Permutation_refl.
  - eapply perm_trans; [apply perm_skip, IH|].
    apply insert_by_start_date_perm.
Qed.

Lemma select_listing_key (g : (Z * Z) * list pool.joined) (x : pool.listing) :
  Forall (fun m => pool.group_key m = fst g) (snd g) ->
  In x (pool.select_listing g) -> listing_key x = fst g.
Proof.
  unfold pool.select_listing. intros Hg.
  destruct (snd g) as [|[[r p] v] ms]; [contradiction|].
  intros [<-|[]]. inversion Hg as [|? ? Hk _]; subst. exact Hk.
Qed.

Lemma listing_keys_NoDup (gs : list ((Z * Z) * list pool.joined)) :
  Forall (fun g => Forall (fun m => pool.group_key m = fst g) (snd g)) gs ->
  NoDup (map fst gs) ->
  NoDup (map listing_key (flat_map pool.select_listing gs)).
Proof.
  induction 1 as [|g gs Hg Hgs IH]; cbn [flat_map map]; [constructor|].
  intros Hnd. inversion Hnd as [|? ? Hfresh Hrest]; subst.
  rewrite map_app. apply NoDup_app; [| now apply IH |].
  - pose proof (select_listing_key g) as Hk.
    unfold pool.select_listing in *.
    destruct (snd g) as [|[[r p] v] ms]; repeat constructor. intros [].
  - intros k (x & <- & Hx)%in_map_iff (y & Ey & Hy)%in_map_iff.
    apply Hfresh. rewrite <- (select_listing_key g x Hg Hx), <- Ey.
    apply in_flat_map in Hy as (g' & Hg' & Hy).
    rewrite Forall_forall in Hgs.
    rewrite (select_listing_key g' y (Hgs g' Hg') Hy).
    now apply in_map.
Qed.

Lemma from_reservations_complete (d : pool.db)
  (r : Reservations.row) (p : Properties.row) (v : PropertyReviews.row) :
  In r (pool.reservations d) -> In p (pool.properties d) ->
  In v (pool.property_reviews d) ->
  Reservations.property_id r = Properties.id p ->
  PropertyReviews.property_id v = Properties.id p ->
  In (r, p, v) (pool.from_reservations d).
Proof.
  intros Hr Hp Hv Erp Evp. unfold pool.from_reservations.
  apply in_flat_map. exists r. split; [exact Hr|].
  apply in_flat_map. exists p. split; [exact Hp|].
  rewrite Erp, Z.eqb_refl.
  apply in_flat_map. exists v. split; [exact Hv|].
  rewrite Evp, Z.eqb_refl. now left.
Qed.

Lemma sum_between (lo hi : Z) (l : list Z) :
  Forall (fun z => lo <= z <= hi) l ->
  lo * Z.of_nat (List.length l) <= fold_right Z.add 0 l
  <= hi * Z.of_nat (List.length l).
Proof.
  induction 1 as [|z l Hz _ IH]; cbn [fold_right List.length]; [lia|].
  rewrite Nat2Z.inj_succ. lia.
Qed.

Lemma avg_between (lo hi : Z) (l : list Z) :
  l <> [] ->
  Forall (fun z => lo <= z <= hi) l ->
  (inject_Z lo <= pool.avg l <= inject_Z hi)%Q.
Proof.
  intros Hne Hl. pose proof (sum_between lo hi l Hl) as Hs.
  unfold pool.avg, Qle, inject_Z. cbn [Qnum Qden].
  assert (E : Z.pos (Pos.of_nat (List.length l)) = Z.of_nat (List.length l)).
  { destruct l as [|z l]; [now elim Hne|]. cbn [List.length].
    rewrite <- Pos.of_nat_succ, Zpos_P_of_succ_nat. lia. }
  rewrite E. lia.
Qed.

Section getAllReservations_more.

Context `{pool.Engine}.

(** The request that [getAllReservations] sends. *)
Lemma getAllReservations_outcome
  (guest_id : Z) (limit : option Z) (s : pool.state) :
  snd (getAllReservations guest_id limit s)
  = (let n := match limit with Some l => l | None => 10 end in
     if n <? 0 then pool.Rejected pool.negative_limit
     else pool.Resolved
            (map pool.ListingRow
               (firstn (Z.to_nat n)
                  (ordered_listing
                     {| pool.text := sql.getAllReservations;
                        pool.values := [VNum (Num guest_id); VNum (Num n)] |}
                     guest_id (pool.store s))))).
Proof.
  unfold getAllReservations.
  rewrite then_outcome, query_outcome, run_getAllReservations.
  cbn [snd]. unfold pool.select_reservations, ordered_listing.
  now destruct (_ <? 0).
Qed.

(** A guest without reservations gets the empty list, and so does every
    guest under limit 0; neither is an error. *)
Theorem getAllReservations_empty
  (guest_id : Z) (limit : option Z) (s : pool.state) :
  let n := match limit with Some l => l | None => 10 end in
  0 <= n ->
  n = 0
  \/ (forall r, In r (pool.reservations (pool.store s)) ->
                Reservations.guest_id r <> guest_id) ->
  snd (getAllReservations guest_id limit s) = pool.Resolved [].
Proof.
  intros n Hn Hcase. rewrite getAllReservations_outcome. cbv zeta. fold n.
  destruct (Z.ltb_spec n 0); [lia|]. destruct Hcase as [->|Hnone].
  - reflexivity.
  - unfold ordered_listing.
    assert (E : pool.where_guest guest_id
                  (pool.from_reservations (pool.store s)) = []).
    { unfold pool.where_guest.
      destruct (filter _ _) as [|j js] eqn:F; [reflexivity|].
      assert (Hj : In j (j :: js)) by now left.
      rewrite <- F in Hj. apply filter_In in Hj as [Hin Hg].
      apply Z.eqb_eq in Hg.
      apply from_reservations_joined in Hin as (Hr & _).
      now elim (Hnone _ Hr). }
    rewrite E. cbn. now rewrite firstn_nil.
Qed.

(** A reservation of the guest for a property that is in the store and
    has a review is listed, under the identity of the reservation and of
    the property, unless the limit has cut the listing (the listing is
    then full). *)
Theorem getAllReservations_lists_reviewed
  (guest_id : Z) (limit : option Z) (s : pool.state)
  (r : Reservations.row) (p : Properties.row) (v : PropertyReviews.row) :
  let n := match limit with Some l => l | None => 10 end in
  let d := pool.store s in
  0 <= n ->
  In r (pool.reservations d) -> Reservations.guest_id r = guest_id ->
  In p (pool.properties d) -> Reservations.property_id r = Properties.id p ->
  In v (pool.property_reviews d) ->
  PropertyReviews.property_id v = Properties.id p ->
  exists rows,
    snd (getAllReservations guest_id limit s) = pool.Resolved rows
    /\ (Z.of_nat (List.length rows) = n
        \/ exists x, In (pool.ListingRow x) rows
                     /\ Reservations.id (pool.listed_reservation x)
                        = Reservations.id r
                     /\ Properties.id (pool.listed_property x)
                        = Properties.id p).
Proof.
  intros n d Hn Hr Hguest Hp Erp Hv Evp.
  rewrite getAllReservations_outcome. cbv zeta. fold n d.
  destruct (Z.ltb_spec n 0); [lia|].
  eexists. split; [reflexivity|].
  rewrite length_map.
  match goal with
  | |- context [ordered_listing ?q guest_id d] =>
      set (L := ordered_listing q guest_id d)
  end.
  destruct (Nat.le_gt_cases (Z.to_nat n) (List.length L)) as [Hfull|Hall].
  { left. rewrite firstn_length_le by exact Hfull. lia. }
  right. rewrite firstn_all2 by lia.
  assert (Hj : In (r, p, v)
                 (pool.where_guest guest_id (pool.from_reservations d))).
  { apply filter_In. split.
    - now apply from_reservations_complete.
    - cbn [fst]. now apply Z.eqb_eq. }
  apply (group_by_complete pool.key_eqb pool.group_key) in Hj
    as (g & Hg & Hm).
  pose proof (group_by_keyed pool.key_eqb pool.group_key key_eqb_eq
                (pool.where_guest guest_id (pool.from_reservations d))) as Hk.
  rewrite Forall_forall in Hk. specialize (Hk g Hg).
  assert (Hx : exists x, In x (pool.select_listing g)).
  { unfold pool.select_listing. destruct (snd g) as [|[[r0 p0] v0] ms];
      [contradiction|]. eexists. now left. }
  destruct Hx as (x & Hx).
  pose proof (select_listing_key g x Hk Hx) as Ex.
  rewrite Forall_forall in Hk. specialize (Hk _ Hm).
  rewrite <- Hk in Ex. injection Ex as Ep Er.
  exists x. split; [|split; assumption].
  apply in_map. unfold L, ordered_listing.
  eapply Permutation_in; [apply order_by_start_date_perm|].
  apply in_flat_map. now exists g.
Qed.

(** The listing has one record for a pair of a property and a
    reservation: no two of its records have the same property id and
    reservation id. *)
Theorem getAllReservations_one_record_per_pair
  (guest_id : Z) (limit : option Z) (s : pool.state) (rows : list pool.row) :
  snd (getAllReservations guest_id limit s) = pool.Resolved rows ->
  exists ls, rows = map pool.ListingRow ls /\ NoDup (map listing_key ls).
Proof.
  rewrite getAllReservations_outcome. cbv zeta.
  destruct (_ <? 0); [discriminate|]. intros [= <-].
  eexists. split; [reflexivity|].
  match goal with
  | |- context [ordered_listing ?q guest_id (pool.store s)] =>
      set (l := ordered_listing q guest_id (pool.store s))
  end.
  assert (Hl : NoDup (map listing_key l)).
  { unfold l, ordered_listing.
    eapply Permutation_NoDup;
      [apply Permutation_map, order_by_start_date_perm|].
    apply listing_keys_NoDup.
    - apply group_by_keyed, key_eqb_eq.
    - apply group_by_NoDup, key_eqb_eq. }
  rewrite <- (firstn_skipn (Z.to_nat (match limit with
                                      | Some l0 => l0
                                      | None => 10
                                      end)) l), map_app in Hl.
  now apply NoDup_app_remove_r in Hl.
Qed.

(** The average rating of a listed record lies between any two bounds
    that hold the ratings of the store's reviews: with ratings from 1 to
    5, every average is between 1 and 5. *)
Theorem getAllReservations_average_between
  (guest_id : Z) (limit : option Z) (s : pool.state)
  (lo hi : Z) (rows : list pool.row) (x : pool.listing) :
  (forall v, In v (pool.property_reviews (pool.store s)) ->
             lo <= PropertyReviews.rating v <= hi) ->
  snd (getAllReservations guest_id limit s) = pool.Resolved rows ->
  In (pool.ListingRow x) rows ->
  (inject_Z lo <= pool.average_rating x <= inject_Z hi)%Q.
Proof.
  intros Hrat. rewrite getAllReservations_outcome. cbv zeta.
  destruct (_ <? 0); [discriminate|]. intros [= <-].
  intros (y & [= ->] & Hy%firstn_In)%in_map_iff.
  unfold ordered_listing in Hy. apply order_by_start_date_In in Hy.
  apply in_flat_map in Hy as (g & Hg & Hx).
  pose proof (group_by_members pool.key_eqb pool.group_key
                (fun j => In (snd j) (pool.property_reviews (pool.store s)))
                (pool.where_guest guest_id
                   (pool.from_reservations (pool.store s)))) as G.
  rewrite !Forall_forall in G.
  assert (Hrev : Forall (fun j : pool.joined =>
                           In (snd j) (pool.property_reviews (pool.store s)))
                   (snd g)).
  { apply G; [|exact Hg]. intros j [Hj _]%filter_In.
    now apply from_reservations_joined in Hj as (_ & Hv & _). }
  unfold pool.select_listing in Hx.
  destruct (snd g) as [|[[r0 p0] v0] ms] eqn:E; [contradiction|].
  destruct Hx as [<-|[]]. cbn [pool.average_rating].
  apply avg_between; [discriminate|].
  apply Forall_map. eapply Forall_impl; [|exact Hrev].
  intros j Hj. now apply Hrat.
Qed.

End getAllReservations_more.

(** ** Users and properties, further *)

Lemma find_app {A : Type} (f : A -> bool) (l l' : list A) :
  find f (l ++ l')%list
  = match find f l with Some a => Some a | None => find f l' end.
Proof.
  induction l as [|a l IH]; cbn [List.app find]; [reflexivity|].
  now destruct (f a).
Qed.

Lemma find_existsb {A : Type} (f : A -> bool) (l : list A) :
  existsb f l = false -> find f l = None.
Proof.
  induction l as [|a l IH]; cbn [existsb find]; [reflexivity|].
  now destruct (f a).
Qed.

Section users_more.

Context `{pool.Engine}.

Lemma getUserWithEmail_outcome (email : string) (s : pool.state) :
  snd (getUserWithEmail email s)
  = pool.Resolved
      (option_map pool.UserRow
         (find (fun u => (Users.email u =? email)%string)
            (pool.users (pool.store s)))).
Proof.
  unfold getUserWithEmail.
  rewrite then_outcome, query_outcome, run_getUserWithEmail.
  cbn [snd pool.rows]. unfold pool.select_user_by_email.
  now rewrite first_row_find.
Qed.

Lemma addUser_users (u : user.t) (s : pool.state) :
  pool.users (pool.store (fst (addUser u s)))
  = (if pool.email_taken (user.email u) (pool.store s)
     then pool.users (pool.store s)
     else (pool.users (pool.store s)
           ++ [ {| Users.id := pool.users_id_seq (pool.store s) + 1;
                   Users.name := user.name u;
                   Users.email := user.email u;
                   Users.password := user.password u |} ])%list).
Proof.
  unfold addUser. rewrite then_state, query_store, run_addUser.
  unfold pool.insert_user.
  now destruct (pool.email_taken (user.email u) (pool.store s)).
Qed.

(** Looking a user up after [addUser]: for the email just added, the
    lookup finds the new row, with the name, email and password that were
    passed, when the insert was accepted, and still finds the earlier row
    when the insert was refused as a duplicate; for any other email the
    lookup answers what it answered before. *)
Theorem addUser_then_getUserWithEmail
  (u : user.t) (email : string) (s : pool.state) :
  snd (getUserWithEmail (user.email u) (fst (addUser u s)))
  = (if pool.email_taken (user.email u) (pool.store s)
     then snd (getUserWithEmail (user.email u) s)
     else pool.Resolved
            (Some (pool.UserRow
                     {| Users.id := pool.users_id_seq (pool.store s) + 1;
                        Users.name := user.name u;
                        Users.email := user.email u;
                        Users.password := user.password u |})))
  /\ (email <> user.email u ->
      snd (getUserWithEmail email (fst (addUser u s)))
      = snd (getUserWithEmail email s)).
Proof.
  rewrite !getUserWithEmail_outcome, addUser_users. split.
  - destruct (pool.email_taken (user.email u) (pool.store s)) eqn:T;
      [reflexivity|].
    rewrite find_app, (find_existsb _ _ T). cbn [find Users.email].
    now rewrite String.eqb_refl.
  - intros Hne.
    destruct (pool.email_taken (user.email u) (pool.store s));
      [reflexivity|].
    rewrite find_app. cbn [find Users.email].
    destruct (String.eqb_spec (user.email u) email) as [E|_];
      [now elim Hne|].
    now destruct (find _ (pool.users (pool.store s))).
Qed.

(** Each of the five operations with a fixed statement hands the pool one
    request whose placeholders are [$1] ... [$n] for its [n] values, so
    none of them can fail on a placeholder without a value or a value
    without a placeholder. *)
Theorem fixed_statements_bind_every_placeholder
  (email : string) (id guest_id : Z) (limit : option Z)
  (u : user.t) (p : property.t) (s : pool.state) :
  let bound_to (s' : pool.state) :=
    exists q, pool.received s' = (pool.received s ++ [q])%list
              /\ placeholders (pool.text q)
                 = seq 1 (List.length (pool.values q)) in
  bound_to (fst (getUserWithEmail email s))
  /\ bound_to (fst (getUserWithId id s))
  /\ bound_to (fst (addUser u s))
  /\ bound_to (fst (getAllReservations guest_id limit s))
  /\ bound_to (fst (addProperty p s)).
Proof.
  cbv zeta.
  unfold getUserWithEmail, getUserWithId, addUser, getAllReservations,
    addProperty.
  repeat split; eexists;
    (split; [now rewrite then_state, query_received | reflexivity]).
Qed.

End users_more.

(** ** What the limit keeps *)

Lemma sorted_app_le {A : Type} (R : A -> A -> Prop) (a b : list A) :
  StronglySorted R (a ++ b)%list ->
  forall x y, In x a -> In y b -> R x y.
Proof.
  induction a as [|z a IH]; cbn [List.app]; [contradiction|].
  intros Hs x y [<-|Hx] Hy; apply StronglySorted_inv in Hs as [Hs Hz].
  - rewrite Forall_forall in Hz. apply Hz, in_or_app. now right.
  - now apply IH.
Qed.

Section limit_keeps_earliest.

Context `{pool.Engine}.

(** The limit keeps the earliest reservations: a record that a larger
    limit lists and the smaller limit does not starts no earlier than any
    record listed under the smaller limit, however the store orders tied
    records in either request. *)
Theorem getAllReservations_keeps_earliest
  (guest_id n m : Z) (s : pool.state) :
  0 <= n <= m ->
  exists ls lm : list pool.listing,
    snd (getAllReservations guest_id (Some n) s)
    = pool.Resolved (map pool.ListingRow ls)
    /\ snd (getAllReservations guest_id (Some m) s)
       = pool.Resolved (map pool.ListingRow lm)
    /\ forall x y,
         In x ls -> In y lm -> ~ In y ls -> starts_no_later x y.
Proof.
  intros Hnm. rewrite !getAllReservations_outcome. cbv zeta.
  destruct (Z.ltb_spec n 0); [lia|]. destruct (Z.ltb_spec m 0); [lia|].
  do 2 eexists. split; [reflexivity|]. split; [reflexivity|].
  intros x y Hx Hy Hny.
  match type of Hx with
  | context [ordered_listing ?q guest_id (pool.store s)] =>
      set (ln := ordered_listing q guest_id (pool.store s)) in Hx, Hny
  end.
  assert (Hin : In y ln).
  { apply firstn_In in Hy. unfold ordered_listing in Hy.
    apply order_by_start_date_In in Hy. unfold ln, ordered_listing.
    eapply Permutation_in; [apply order_by_start_date_perm | exact Hy]. }
  rewrite <- (firstn_skipn (Z.to_nat n) ln) in Hin.
  apply in_app_or in Hin as [Hin|Hin]; [now elim Hny|].
  apply (sorted_app_le starts_no_later
           (firstn (Z.to_nat n) ln) (skipn (Z.to_nat n) ln));
    try assumption.
  rewrite firstn_skipn. unfold ln, ordered_listing.
  apply order_by_start_date_sorted.
Qed.

End limit_keeps_earliest.

(** ** The further properties on examples *)

Lemma queryString_depends_on_guards_only_witness :
  queryString (getAllProperties_query price_range_options VUndefined)
  = queryString (getAllProperties_query quoting_options (VNum (Num 3))).
Proof.
  apply (queryString_depends_on_guards_only
           price_range_options quoting_options VUndefined (VNum (Num 3)));
    reflexivity.
Defined.

Lemma getAllProperties_city_first_witness :
  nth_error (queryParams (getAllProperties_query quoting_options VUndefined)) 0
  = Some (VStr ("%" ++ ToString (options.city quoting_options) ++ "%"))
  /\ prefix (base_clause ++ "AND city ILIKE $1 ")
       (queryString (getAllProperties_query quoting_options VUndefined))
     = true
  /\ forall s : string,
       options.city quoting_options = VStr s ->
       nth_error
         (queryParams (getAllProperties_query quoting_options VUndefined)) 0
       = Some (VStr ("%" ++ s ++ "%")).
Proof.
  apply (getAllProperties_city_first quoting_options VUndefined).
  reflexivity.
Defined.

Lemma getAllReservations_empty_witness :
  snd (getAllReservations 99 None (fresh sample_db)) = pool.Resolved [].
Proof.
  apply (getAllReservations_empty 99 None (fresh sample_db)); [lia|].
  right. intros r Hr. cbn in Hr.
  destruct Hr as [<-|[<-|[<-|[<-|[<-|[]]]]]]; discriminate.
Defined.

Lemma getAllReservations_lists_reviewed_witness :
  exists rows,
    snd (getAllReservations 7 None (fresh sample_db)) = pool.Resolved rows
    /\ (Z.of_nat (List.length rows) = 10
        \/ exists x, In (pool.ListingRow x) rows
                     /\ Reservations.id (pool.listed_reservation x)
                        = Reservations.id (sample_reservation 2 7 2 10)
                     /\ Properties.id (pool.listed_property x)
                        = Properties.id (sample_property 2)).
Proof.
  apply (getAllReservations_lists_reviewed 7 None (fresh sample_db)
           (sample_reservation 2 7 2 10) (sample_property 2)
           (sample_review 2 2 3));
    try reflexivity; try lia; cbn; auto.
Defined.

Lemma getAllReservations_one_record_per_pair_witness :
  exists rows ls,
    snd (getAllReservations 7 (Some 2) (fresh sample_db))
    = pool.Resolved rows
    /\ rows = map pool.ListingRow ls
    /\ NoDup (map listing_key ls).
Proof.
  destruct (snd (getAllReservations 7 (Some 2) (fresh sample_db)))
    as [rows|e] eqn:E; [|discriminate E].
  destruct (getAllReservations_one_record_per_pair
              7 (Some 2) (fresh sample_db) rows E) as (ls & Hrows & Hnd).
  exists rows, ls. auto.
Defined.

Lemma getAllReservations_average_between_witness :
  exists rows,
    snd (getAllReservations 7 (Some 2) (fresh sample_db))
    = pool.Resolved rows
    /\ forall x, In (pool.ListingRow x) rows ->
                 (inject_Z 1 <= pool.average_rating x <= inject_Z 5)%Q.
Proof.
  destruct (snd (getAllReservations 7 (Some 2) (fresh sample_db)))
    as [rows|e] eqn:E; [|discriminate E].
  exists rows. split; [reflexivity|]. intros x Hx.
  apply (getAllReservations_average_between 7 (Some 2) (fresh sample_db) 1 5
           rows x); [|exact E | exact Hx].
  intros v Hv. cbn in Hv.
  destruct Hv as [<-|[<-|[<-|[]]]]; cbn; lia.
Defined.

Lemma addUser_then_getUserWithEmail_witness :
  snd (getUserWithEmail "a@x.com"
         (fst (addUser {| user.name := "B";
                          user.email := "b@x.com";
                          user.password := "q" |} (fresh sample_db))))
  = snd (getUserWithEmail "a@x.com" (fresh sample_db)).
Proof.
  apply (proj2 (addUser_then_getUserWithEmail
                  {| user.name := "B"; user.email := "b@x.com";
                     user.password := "q" |} "a@x.com" (fresh sample_db))).
  discriminate.
Defined.

Lemma getAllReservations_keeps_earliest_witness :
  exists ls lm : list pool.listing,
    snd (getAllReservations 7 (Some 1) (fresh sample_db))
    = pool.Resolved (map pool.ListingRow ls)
    /\ snd (getAllReservations 7 (Some 3) (fresh sample_db))
       = pool.Resolved (map pool.ListingRow lm)
    /\ forall x y,
         In x ls -> In y lm -> ~ In y ls -> starts_no_later x y.
Proof.
  apply (getAllReservations_keeps_earliest 7 1 3 (fresh sample_db)). lia.
Defined.
